(** * votebcn: the vote leaderboard bot of [src/index.js]

    A shallow embedding of the synchronisation cycle of [MinecraftVoteBot]:
    the change hash ([generateDataHash]), the timestamp conversion
    ([convertESTtoIST]), the leaderboard rendering ([createVoteEmbed] with
    [getLatestTimestampForUser]) and the reconciliation cycle
    ([updateVoteMessage]).

    Conventions of the model.
    - A JavaScript string is a [string]; each [ascii] is one UTF-16 code
      unit below 256.
    - A JavaScript number is an integer in [Z] (doubles are exact on the
      safe integers, and the model does not round beyond them nor print in
      exponent form); [None] in an [option Z] is [NaN].
    - A payload received from the provider is a [json] value; [undefined]
      is [None] in [jsval].
    - A JavaScript exception is the [Throw] completion.
    - Two libraries decide what the source computes and are modelled beside
      it: the date parser of the engine ([DateParser]) and the checks of the
      embed builder ([EmbedBuilder]). *)

From Stdlib Require Import ZArith List Bool Lia.
From Stdlib Require Import Strings.String Strings.Ascii.
From Stdlib Require Import Numbers.DecimalString.
From Stdlib Require DecimalZ DecimalPos.
From Stdlib Require Import Sorting.Permutation Sorting.Sorted.
Import ListNotations.

Local Open Scope string_scope.
Local Open Scope Z_scope.

(* ================================================================== *)
(** ** Strings and numbers of the host language *)

Module JS.

(** [Number.prototype.toString] on an integer. *)
Definition Z_toString (z : Z) : string :=
  NilZero.string_of_int (Z.to_int z).

(** [NaN] prints as the three letters. *)
Definition num_toString (n : option Z) : string :=
  match n with
  | Some z => Z_toString z
  | None => "NaN"
  end.

(** [charCodeAt] over a whole string: the list of its code units. *)
Definition charCodes (s : string) : list Z :=
  map (fun c => Z.of_nat (nat_of_ascii c)) (list_ascii_of_string s).

Definition code (c : ascii) : Z := Z.of_nat (nat_of_ascii c).

Definition is_digit (c : ascii) : bool :=
  (48 <=? code c) && (code c <=? 57).

(** White space of [String.prototype.trim] among the code units below 256:
    TAB, LF, VT, FF, CR, SP and NBSP. *)
Definition is_space (c : ascii) : bool :=
  let n := code c in
  ((9 <=? n) && (n <=? 13)) || (n =? 32) || (n =? 160).

Fixpoint trimStart (s : string) : string :=
  match s with
  | EmptyString => EmptyString
  | String c r => if is_space c then trimStart r else s
  end.

(** [trimEnd]: a suffix made of white space only is dropped. *)
Fixpoint trimEnd (s : string) : string :=
  match s with
  | EmptyString => EmptyString
  | String c r =>
      match trimEnd r with
      | EmptyString => if is_space c then EmptyString else String c EmptyString
      | r' => String c r'
      end
  end.

Definition trim (s : string) : string := trimEnd (trimStart s).

Fixpoint drop (n : nat) (s : string) : string :=
  match n, s with
  | O, _ => s
  | S _, EmptyString => EmptyString
  | S k, String _ r => drop k r
  end.

(** [s.replace(pat, rep)] with a string pattern: the first occurrence only. *)
Fixpoint replace_first (pat rep s : string) : string :=
  if prefix pat s then rep ++ drop (length pat) s
  else match s with
       | EmptyString => EmptyString
       | String c r => String c (replace_first pat rep r)
       end.

(** [str.padStart(2, '0')]. *)
Definition padStart2 (s : string) : string :=
  match s with
  | String c EmptyString => String "0" (String c EmptyString)
  | EmptyString => "00"
  | _ => s
  end.

(** [ToInt32]: reduction modulo 2^32 into the signed range. *)
Definition ToInt32 (z : Z) : Z :=
  let m := z mod 4294967296 in
  if 2147483648 <=? m then m - 4294967296 else m.

(** [a << n] on numbers. *)
Definition shl (a n : Z) : Z := ToInt32 (Z.shiftl (ToInt32 a) (n mod 32)).

(** [a & b] on numbers. *)
Definition band (a b : Z) : Z := ToInt32 (Z.land (ToInt32 a) (ToInt32 b)).

End JS.

(* ================================================================== *)
(** ** Completions: a value or a thrown exception *)

Inductive Completion (A : Type) : Type :=
| Normal (a : A)
| Throw (what : string).
Arguments Normal {A} a.
Arguments Throw {A} what.

Definition cbind {A B} (c : Completion A) (k : A -> Completion B) : Completion B :=
  match c with
  | Normal a => k a
  | Throw e => Throw e
  end.

Notation "x <- c ;; k" := (cbind c (fun x => k))
  (at level 61, c at next level, right associativity).

Fixpoint mapC {A B} (f : A -> Completion B) (l : list A) : Completion (list B) :=
  match l with
  | [] => Normal []
  | x :: r => y <- f x ;; ys <- mapC f r ;; Normal (y :: ys)
  end.

(* ================================================================== *)
(** ** JSON payloads *)

#[local] Set Warnings "-register-all".

Inductive json : Type :=
| JNull
| JBool (b : bool)
| JNum (z : Z)
| JStr (s : string)
| JArr (items : list json)
| JObj (fields : list (string * json)).

(** A JavaScript value read out of a payload; [None] is [undefined]. *)
Definition jsval : Type := option json.
Definition undefined : jsval := None.

Module Json.

Definition hexdigit (n : Z) : ascii :=
  if n <? 10 then ascii_of_nat (Z.to_nat (48 + n))
  else ascii_of_nat (Z.to_nat (87 + n)).

(** One code unit inside a JSON string literal ([QuoteJSONString]). *)
Definition quote_char (c : ascii) : string :=
  let n := JS.code c in
  if n =? 34 then "\" ++ String c EmptyString
  else if n =? 92 then "\\"
  else if n =? 8 then "\b"
  else if n =? 9 then "\t"
  else if n =? 10 then "\n"
  else if n =? 12 then "\f"
  else if n =? 13 then "\r"
  else if n <? 32 then
    "\u00" ++ String (hexdigit (n / 16)) (String (hexdigit (n mod 16)) EmptyString)
  else String c EmptyString.

Fixpoint quote_body (s : string) : string :=
  match s with
  | EmptyString => EmptyString
  | String c r => quote_char c ++ quote_body r
  end.

Definition dquote : string := String (ascii_of_nat 34) EmptyString.

Definition quote (s : string) : string := dquote ++ quote_body s ++ dquote.

(** [JSON.stringify] without indentation. *)
Fixpoint stringify (j : json) : string :=
  match j with
  | JNull => "null"
  | JBool true => "true"
  | JBool false => "false"
  | JNum z => JS.Z_toString z
  | JStr s => quote s
  | JArr items =>
      "[" ++
      (fix elems (l : list json) : string :=
         match l with
         | [] => ""
         | x :: r =>
             match r with
             | [] => stringify x
             | _ :: _ => stringify x ++ "," ++ elems r
             end
         end) items ++ "]"
  | JObj fields =>
      "{" ++
      (fix members (l : list (string * json)) : string :=
         match l with
         | [] => ""
         | (k, v) :: r =>
             match r with
             | [] => quote k ++ ":" ++ stringify v
             | _ :: _ => quote k ++ ":" ++ stringify v ++ "," ++ members r
             end
         end) fields ++ "}"
  end.

End Json.

(* ================================================================== *)
(** ** Reading payload values *)

Module Val.

(** [ToBoolean]. *)
Definition truthy (v : jsval) : bool :=
  match v with
  | None => false
  | Some JNull => false
  | Some (JBool b) => b
  | Some (JNum z) => negb (z =? 0)
  | Some (JStr s) => negb (String.eqb s "")
  | Some (JArr _) => true
  | Some (JObj _) => true
  end.

Fixpoint assoc (k : string) (fields : list (string * json)) : jsval :=
  match fields with
  | [] => None
  | (k', v) :: r => if String.eqb k k' then Some v else assoc k r
  end.

(** [v.k] for a data key [k]: a [TypeError] on [null] and [undefined], the
    member of an object, the length of a string or an array, and
    [undefined] otherwise. *)
Definition get (v : jsval) (k : string) : Completion jsval :=
  match v with
  | None => Throw "TypeError"
  | Some JNull => Throw "TypeError"
  | Some (JObj fields) => Normal (assoc k fields)
  | Some (JStr s) =>
      Normal (if String.eqb k "length" then Some (JNum (Z.of_nat (String.length s))) else None)
  | Some (JArr l) =>
      Normal (if String.eqb k "length" then Some (JNum (Z.of_nat (List.length l))) else None)
  | Some _ => Normal None
  end.

(** [v?.k]: [undefined] where [v.k] would throw. *)
Definition get_opt (v : jsval) (k : string) : jsval :=
  match get v k with
  | Normal x => x
  | Throw _ => None
  end.

(** [a || b]. *)
Definition or_else (a b : jsval) : jsval := if truthy a then a else b.

(** [a === b] on values of two different payloads: primitives compare by
    value, two arrays or objects are never the same reference. *)
Definition strict_eq (a b : jsval) : bool :=
  match a, b with
  | None, None => true
  | Some JNull, Some JNull => true
  | Some (JBool x), Some (JBool y) => Bool.eqb x y
  | Some (JNum x), Some (JNum y) => x =? y
  | Some (JStr x), Some (JStr y) => String.eqb x y
  | _, _ => false
  end.

End Val.

(* ================================================================== *)
(** ** The change hash                                                 *)

(** Both members of the serialised object are defaulted to [[]], so neither
    is ever [undefined]. *)
Definition json_of (v : jsval) : json :=
  match v with
  | Some j => j
  | None => JNull
  end.

(** [voteData?.voters || []]. *)
Definition raw_voters (voteData : jsval) : json :=
  json_of (Val.or_else (Val.get_opt voteData "voters") (Some (JArr []))).

(** [timestampData?.votes || []]. *)
Definition raw_timestamps (timestampData : jsval) : json :=
  json_of (Val.or_else (Val.get_opt timestampData "votes") (Some (JArr []))).

(** The string that [generateDataHash] serialises. *)
Definition dataString (voteData timestampData : jsval) : string :=
  Json.stringify
    (JObj [("voters", raw_voters voteData);
           ("timestamps", raw_timestamps timestampData)]).

(** One turn of the loop:
    [hash = ((hash << 5) - hash) + char; hash = hash & hash]. *)
Definition hash_step (hash char : Z) : Z :=
  let hash := (JS.shl hash 5 - hash) + char in
  JS.band hash hash.

(** The loop over [i = 0 .. length-1], left to right from [hash = 0]. *)
Definition hash_loop (codes : list Z) : Z := fold_left hash_step codes 0.

Definition generateDataHash (voteData timestampData : jsval) : string :=
  JS.Z_toString (hash_loop (JS.charCodes (dataString voteData timestampData))).


(* ================================================================== *)
(** ** Dates                                                           *)

(** What the source takes from its host: the parser behind
    [new Date(string)] (implementation-defined outside the ISO layout;
    [None] is an invalid date) and the offset of the host's time zone, in
    milliseconds, at a given instant. *)
Record Host : Type := {
  Date_parse : string -> option Z;
  LocalTZA : Z -> Z
}.

Module Date.

Definition msPerDay : Z := 86400000.

(** Days since 1970-01-01 of a civil date (months 1..12). *)
Definition days_from_civil (y m d : Z) : Z :=
  let y' := if m <=? 2 then y - 1 else y in
  let era := y' / 400 in
  let yoe := y' - era * 400 in
  let mp := (m + 9) mod 12 in
  let doy := (153 * mp + 2) / 5 + d - 1 in
  let doe := yoe * 365 + yoe / 4 - yoe / 100 + doy in
  era * 146097 + doe - 719468.

(** The civil date (year, month 1..12, day) of a day number. *)
Definition civil_from_days (n : Z) : Z * Z * Z :=
  let z := n + 719468 in
  let era := z / 146097 in
  let doe := z - era * 146097 in
  let yoe := (doe - doe / 1460 + doe / 36524 - doe / 146096) / 365 in
  let y := yoe + era * 400 in
  let doy := doe - (365 * yoe + yoe / 4 - yoe / 100) in
  let mp := (5 * doy + 2) / 153 in
  let d := doy - (153 * mp + 2) / 5 + 1 in
  let m := if mp <? 10 then mp + 3 else mp - 9 in
  (if m <=? 2 then y + 1 else y, m, d).

Definition YearFromTime (t : Z) : Z := fst (fst (civil_from_days (t / msPerDay))).
Definition MonthFromTime (t : Z) : Z := snd (fst (civil_from_days (t / msPerDay))) - 1.
Definition DateFromTime (t : Z) : Z := snd (civil_from_days (t / msPerDay)).
Definition HourFromTime (t : Z) : Z := (t / 3600000) mod 24.
Definition MinFromTime (t : Z) : Z := (t / 60000) mod 60.
Definition SecFromTime (t : Z) : Z := (t / 1000) mod 60.

(** [TimeClip]: a time value beyond 8.64e15 ms is not a date. *)
Definition TimeClip (t : Z) : option Z :=
  if Z.abs t <=? 8640000000000000 then Some t else None.

(** [new Date(number)]; the operand [None] is [NaN]. *)
Definition of_number (n : option Z) : option Z :=
  match n with
  | Some t => TimeClip t
  | None => None
  end.

Section Getters.
Variable host : Host.

(** [new Date(string)]. *)
Definition of_string (s : string) : option Z := of_number (Date_parse host s).

Definition LocalTime (t : Z) : Z := t + LocalTZA host t.

(** The getters read the date in the host's local time. *)
Definition getFullYear (d : option Z) : option Z :=
  option_map (fun t => YearFromTime (LocalTime t)) d.
Definition getMonth (d : option Z) : option Z :=
  option_map (fun t => MonthFromTime (LocalTime t)) d.
Definition getDate (d : option Z) : option Z :=
  option_map (fun t => DateFromTime (LocalTime t)) d.
Definition getHours (d : option Z) : option Z :=
  option_map (fun t => HourFromTime (LocalTime t)) d.
Definition getMinutes (d : option Z) : option Z :=
  option_map (fun t => MinFromTime (LocalTime t)) d.
Definition getSeconds (d : option Z) : option Z :=
  option_map (fun t => SecFromTime (LocalTime t)) d.
End Getters.

Definition getTime (d : option Z) : option Z := d.

End Date.

(* ================================================================== *)
(** ** convertESTtoIST                                                 *)

(** [s.replace(/(\d+)(st|nd|rd|th)/, '$1')]: the pattern has no [g] flag, so
    only the leftmost match is rewritten. A match is a run of digits
    directly followed by one of the four suffixes; it ends at the first digit
    that is followed by a suffix, and the two letters are dropped. *)
Definition starts_with_ordinal (s : string) : bool :=
  prefix "st" s || prefix "nd" s || prefix "rd" s || prefix "th" s.

Fixpoint replace_ordinal (s : string) : string :=
  match s with
  | EmptyString => EmptyString
  | String c r =>
      if JS.is_digit c && starts_with_ordinal r
      then String c (JS.drop 2 r)
      else String c (replace_ordinal r)
  end.

Definition isNaN (n : option Z) : bool :=
  match n with
  | Some _ => false
  | None => true
  end.

(** [10.5 * 60 * 60 * 1000]. *)
Definition offset_ms : Z := 37800000.

Section Convert.
Variable host : Host.

(** The cleaned text handed to the date parser. *)
Definition cleaned (estDateString : string) : string :=
  replace_ordinal (JS.trim (JS.replace_first " EST" "" estDateString)).

(** The statements inside [try] for a string argument. *)
Definition convert_string (estDateString : string) : string :=
  let dateStr := cleaned estDateString in
  let estDate := Date.of_string host (dateStr ++ " GMT-0500") in
  if isNaN (Date.getTime estDate) then "Invalid Date"
  else
    let istDate :=
      Date.of_number (option_map (fun t => t + offset_ms) (Date.getTime estDate)) in
    let day := JS.padStart2 (JS.num_toString (Date.getDate host istDate)) in
    let month :=
      JS.padStart2 (JS.num_toString (option_map (fun m => m + 1) (Date.getMonth host istDate))) in
    let year := Date.getFullYear host istDate in
    let hours := Date.getHours host istDate in
    let minutes := JS.padStart2 (JS.num_toString (Date.getMinutes host istDate)) in
    let seconds := JS.padStart2 (JS.num_toString (Date.getSeconds host istDate)) in
    let ampm :=
      match hours with
      | Some h => if 12 <=? h then "PM" else "AM"
      | None => "AM"
      end in
    let hours := option_map (fun h => h mod 12) hours in
    let hours :=
      match hours with
      | Some 0 => Some 12
      | _ => hours
      end in
    day ++ "/" ++ month ++ "/" ++ JS.num_toString year ++ ", " ++
    JS.num_toString hours ++ ":" ++ minutes ++ ":" ++ seconds ++ " " ++ ampm ++ " IST".

(** The body of the [try] block: [.replace] is a method of strings only,
    so any other truthy argument raises a [TypeError] there. *)
Definition convert_try (estDateString : jsval) : Completion string :=
  match estDateString with
  | Some (JStr s) => Normal (convert_string s)
  | _ => Throw "TypeError"
  end.

Definition convertESTtoIST (estDateString : jsval) : string :=
  if negb (Val.truthy estDateString) || Val.strict_eq estDateString (Some (JStr "Unknown"))
  then "Unknown"
  else
    match convert_try estDateString with
    | Normal s => s
    | Throw _ => "Invalid Date"
    end.
End Convert.

(* ================================================================== *)
(** ** The engine's date parser                                        *)

(** [new Date(string)] on a text outside the ISO layout is left to the
    engine. The bot runs on Node.js, whose engine reads such a text with the
    rules below: the text is cut into numbers, words, signs and white space;
    an ISO prefix is tried first, and whatever it leaves is read token by
    token into a day, a time and a zone. Words before the first number are
    skipped, a word after it must be a month, [AM]/[PM] or a zone name, and
    a text that names no zone is read in the zone of the host. *)
Module DateParser.

Inductive KeywordType : Type :=
| INVALID | MONTH_NAME | AM_PM | TIME_ZONE_NAME | TIME_SEPARATOR.

Definition KeywordType_eqb (a b : KeywordType) : bool :=
  match a, b with
  | INVALID, INVALID | MONTH_NAME, MONTH_NAME | AM_PM, AM_PM
  | TIME_ZONE_NAME, TIME_ZONE_NAME | TIME_SEPARATOR, TIME_SEPARATOR => true
  | _, _ => false
  end.

Inductive DateToken : Type :=
| Number (n : Z) (length : nat)
| Symbol (c : ascii)
| WhiteSpace
| Keyword (type : KeywordType) (value : Z) (length : nat)
| Unknown.

(** The keyword table: a word is looked up by its first three letters in
    lower case; only a month name may be longer than its entry. *)
Definition KeywordTable : list (string * KeywordType * Z) :=
  [("jan", MONTH_NAME, 1); ("feb", MONTH_NAME, 2); ("mar", MONTH_NAME, 3);
   ("apr", MONTH_NAME, 4); ("may", MONTH_NAME, 5); ("jun", MONTH_NAME, 6);
   ("jul", MONTH_NAME, 7); ("aug", MONTH_NAME, 8); ("sep", MONTH_NAME, 9);
   ("oct", MONTH_NAME, 10); ("nov", MONTH_NAME, 11); ("dec", MONTH_NAME, 12);
   ("am", AM_PM, 0); ("pm", AM_PM, 12);
   ("ut", TIME_ZONE_NAME, 0); ("utc", TIME_ZONE_NAME, 0);
   ("z", TIME_ZONE_NAME, 0); ("gmt", TIME_ZONE_NAME, 0);
   ("cdt", TIME_ZONE_NAME, -5); ("cst", TIME_ZONE_NAME, -6);
   ("edt", TIME_ZONE_NAME, -4); ("est", TIME_ZONE_NAME, -5);
   ("mdt", TIME_ZONE_NAME, -6); ("mst", TIME_ZONE_NAME, -7);
   ("pdt", TIME_ZONE_NAME, -7); ("pst", TIME_ZONE_NAME, -8);
   ("t", TIME_SEPARATOR, 0)].

Fixpoint codes_eqb (a b : list Z) : bool :=
  match a, b with
  | [], [] => true
  | x :: a', y :: b' => (x =? y) && codes_eqb a' b'
  | _, _ => false
  end.

Fixpoint Lookup (table : list (string * KeywordType * Z)) (pre : list Z) (len : nat)
  : KeywordType * Z :=
  match table with
  | [] => (INVALID, 0)
  | (word, type, value) :: rest =>
      if codes_eqb pre (JS.charCodes word)
         && ((len <=? 3)%nat || KeywordType_eqb type MONTH_NAME)
      then (type, value)
      else Lookup rest pre len
  end.

(** *** The tokenizer *)

Definition IsAsciiAlphaOrAbove (c : ascii) : bool := 65 <=? JS.code c.

Definition AsciiAlphaToLower (c : ascii) : Z := Z.lor (JS.code c) 32.

Fixpoint skip_zeros (s : string) (len : nat) : nat * string :=
  match s with
  | String c r => if JS.code c =? 48 then skip_zeros r (S len) else (len, s)
  | EmptyString => (len, s)
  end.

(** Digits after the leading zeros: no more than nine are read into the
    value, all of them count in the length. *)
Fixpoint read_digits (s : string) (n : Z) (i len : nat) : Z * nat * string :=
  match s with
  | String c r =>
      if JS.is_digit c
      then read_digits r (if (i <? 9)%nat then n * 10 + (JS.code c - 48) else n)
                       (S i) (S len)
      else (n, len, s)
  | EmptyString => (n, len, s)
  end.

Definition ReadUnsignedNumeral (s : string) : Z * nat * string :=
  let '(len, s1) := skip_zeros s 0 in
  read_digits s1 0 0 len.

Fixpoint ReadWord (s : string) (pre : list Z) (len : nat) : list Z * nat * string :=
  match s with
  | String c r =>
      if IsAsciiAlphaOrAbove c && negb (JS.is_space c)
      then ReadWord r (if (len <? 3)%nat then (pre ++ [AsciiAlphaToLower c])%list else pre)
                    (S len)
      else (pre, len, s)
  | EmptyString => (pre, len, s)
  end.

(** From an opening parenthesis to the one that closes it, or to the end. *)
Fixpoint SkipParentheses (s : string) (balance : Z) : string :=
  match s with
  | EmptyString => EmptyString
  | String c r =>
      let balance :=
        if JS.code c =? 41 then balance - 1
        else if JS.code c =? 40 then balance + 1
        else balance in
      if 0 <? balance then SkipParentheses r balance else r
  end.

Definition is_symbol (c : ascii) : bool :=
  let n := JS.code c in
  (n =? 58) || (n =? 45) || (n =? 43) || (n =? 46) || (n =? 41).

Fixpoint Scan (fuel : nat) (s : string) : list DateToken :=
  match fuel with
  | O => []
  | S fuel =>
      match s with
      | EmptyString => []
      | String c r =>
          if JS.is_digit c then
            let '(n, len, rest) := ReadUnsignedNumeral s in
            Number n len :: Scan fuel rest
          else if is_symbol c then Symbol c :: Scan fuel r
          else if IsAsciiAlphaOrAbove c && negb (JS.is_space c) then
            let '(pre, len, rest) := ReadWord s [] 0 in
            let '(type, value) := Lookup KeywordTable pre len in
            Keyword type value len :: Scan fuel rest
          else if JS.is_space c then WhiteSpace :: Scan fuel r
          else if JS.code c =? 40 then Unknown :: Scan fuel (SkipParentheses s 0)
          else Unknown :: Scan fuel r
      end
  end.

Definition tokens (s : string) : list DateToken := Scan (String.length s) s.

(** *** The three composers *)

Record DayComposer : Type := {
  day_comp : list Z;
  named_month : option Z;
  is_iso_date : bool
}.

Record TimeComposer : Type := {
  time_comp : list Z;
  hour_offset : option Z
}.

Record TimeZoneComposer : Type := {
  tz_sign : option Z;
  tz_hour : option Z;
  tz_minute : option Z
}.

Record Composers : Type := {
  day : DayComposer;
  time : TimeComposer;
  tz : TimeZoneComposer;
  has_read_number : bool
}.

Definition empty : Composers :=
  {| day := {| day_comp := []; named_month := None; is_iso_date := false |};
     time := {| time_comp := []; hour_offset := None |};
     tz := {| tz_sign := None; tz_hour := None; tz_minute := None |};
     has_read_number := false |}.

Definition Between (x lo hi : Z) : bool := (lo <=? x) && (x <=? hi).
Definition IsMonth (x : Z) : bool := Between x 1 12.
Definition IsDay (x : Z) : bool := Between x 1 31.
Definition IsHour (x : Z) : bool := Between x 0 23.
Definition IsHour12 (x : Z) : bool := Between x 0 12.
Definition IsMinute (x : Z) : bool := Between x 0 59.
Definition IsSecond (x : Z) : bool := Between x 0 59.
Definition IsMillisecond (x : Z) : bool := Between x 0 999.

Definition with_day (st : Composers) (d : DayComposer) : Composers :=
  {| day := d; time := time st; tz := tz st; has_read_number := has_read_number st |}.
Definition with_time (st : Composers) (t : TimeComposer) : Composers :=
  {| day := day st; time := t; tz := tz st; has_read_number := has_read_number st |}.
Definition with_tz (st : Composers) (z : TimeZoneComposer) : Composers :=
  {| day := day st; time := time st; tz := z; has_read_number := has_read_number st |}.
Definition read_number (st : Composers) : Composers :=
  {| day := day st; time := time st; tz := tz st; has_read_number := true |}.

Definition day_Add (st : Composers) (n : Z) : option Composers :=
  let d := day st in
  if (List.length (day_comp d) <? 3)%nat
  then Some (with_day st {| day_comp := (day_comp d ++ [n])%list;
                            named_month := named_month d;
                            is_iso_date := is_iso_date d |})
  else None.

Definition SetNamedMonth (st : Composers) (n : Z) : Composers :=
  with_day st {| day_comp := day_comp (day st); named_month := Some n;
                 is_iso_date := is_iso_date (day st) |}.

Definition set_iso_date (st : Composers) : Composers :=
  with_day st {| day_comp := day_comp (day st); named_month := named_month (day st);
                 is_iso_date := true |}.

Definition day_IsEmpty (st : Composers) : bool :=
  match day_comp (day st) with [] => true | _ => false end.

Definition time_IsEmpty (st : Composers) : bool :=
  match time_comp (time st) with [] => true | _ => false end.

Definition time_IsExpecting (st : Composers) (n : Z) : bool :=
  match List.length (time_comp (time st)) with
  | 1%nat => IsMinute n
  | 2%nat => IsSecond n
  | 3%nat => IsMillisecond n
  | _ => false
  end.

Definition time_Add (st : Composers) (n : Z) : option Composers :=
  let t := time st in
  if (List.length (time_comp t) <? 4)%nat
  then Some (with_time st {| time_comp := (time_comp t ++ [n])%list;
                             hour_offset := hour_offset t |})
  else None.

Definition pad (k : nat) (filler : Z) (l : list Z) : list Z :=
  (l ++ repeat filler (k - List.length l))%list.

(** The value and zeros for what is left of the time; nothing when the
    time is full already. *)
Definition time_AddFinal (st : Composers) (n : Z) : Composers :=
  match time_Add st n with
  | Some st' =>
      with_time st' {| time_comp := pad 4 0 (time_comp (time st'));
                       hour_offset := hour_offset (time st') |}
  | None => st
  end.

Definition SetHourOffset (st : Composers) (n : Z) : Composers :=
  with_time st {| time_comp := time_comp (time st); hour_offset := Some n |}.

Definition tz_Set (st : Composers) (offset_in_hours : Z) : Composers :=
  with_tz st {| tz_sign := Some (if offset_in_hours <? 0 then -1 else 1);
                tz_hour := Some (Z.abs offset_in_hours);
                tz_minute := Some 0 |}.

Definition tz_SetSign (st : Composers) (sign : Z) : Composers :=
  with_tz st {| tz_sign := Some (if sign <? 0 then -1 else 1);
                tz_hour := tz_hour (tz st); tz_minute := tz_minute (tz st) |}.

Definition SetAbsoluteHour (st : Composers) (h : Z) : Composers :=
  with_tz st {| tz_sign := tz_sign (tz st); tz_hour := Some h;
                tz_minute := tz_minute (tz st) |}.

Definition SetAbsoluteMinute (st : Composers) (m : option Z) : Composers :=
  with_tz st {| tz_sign := tz_sign (tz st); tz_hour := tz_hour (tz st);
                tz_minute := m |}.

Definition tz_IsExpecting (st : Composers) : bool :=
  match tz_hour (tz st), tz_minute (tz st) with
  | Some _, None => true
  | _, _ => false
  end.

Definition tz_IsUTC (st : Composers) : bool :=
  match tz_hour (tz st), tz_minute (tz st) with
  | Some h, Some m => (h =? 0) && (m =? 0)
  | _, _ => false
  end.

Definition tz_IsEmpty (st : Composers) : bool :=
  match tz_hour (tz st) with None => true | Some _ => false end.

(** *** Reading the tokens *)

Definition is_sign (c : ascii) : bool := (JS.code c =? 43) || (JS.code c =? 45).
Definition ascii_sign (c : ascii) : Z := if JS.code c =? 43 then 1 else -1.

Definition SkipSymbol (c : Z) (l : list DateToken) : option (list DateToken) :=
  match l with
  | Symbol c' :: r => if JS.code c' =? c then Some r else None
  | _ => None
  end.

(** The fraction of a second: one digit is tenths, two are hundredths, and
    of more than three only the first three count. *)
Definition ReadMilliseconds (number : Z) (length : nat) : Z :=
  match length with
  | 1%nat => number * 100
  | 2%nat => number * 10
  | 3%nat => number
  | _ => number / 10 ^ (Z.of_nat (Nat.min length 9) - 3)
  end.

(** The token that may follow a finished time. *)
Definition ends_time (l : list DateToken) : bool :=
  match l with
  | [] => true
  | WhiteSpace :: _ => true
  | Keyword TIME_ZONE_NAME _ 1 :: _ => true
  | Symbol c :: _ => is_sign c
  | _ => false
  end.

Definition peek_IsNumber (l : list DateToken) : bool :=
  match l with
  | Number _ _ :: _ => true
  | _ => false
  end.

(** The loop over the tokens that the ISO prefix left; [None] is a text
    that is no date. *)
Fixpoint legacy (fuel : nat) (st : Composers) (l : list DateToken) : option Composers :=
  match fuel with
  | O => None
  | S fuel =>
      match l with
      | [] => Some st
      | Number n _ :: r =>
          let st := read_number st in
          match SkipSymbol 58 r with
          | Some r1 =>
              match SkipSymbol 58 r1 with
              | Some r2 =>
                  if negb (time_IsEmpty st) then None
                  else
                    match time_Add st n with
                    | Some st1 =>
                        match time_Add st1 0 with
                        | Some st2 => legacy fuel st2 r2
                        | None => None
                        end
                    | None => None
                    end
              | None =>
                  match time_Add st n with
                  | Some st1 =>
                      match SkipSymbol 46 r1 with
                      | Some r2 => legacy fuel st1 r2
                      | None => legacy fuel st1 r1
                      end
                  | None => None
                  end
              end
          | None =>
              let r1 := match SkipSymbol 46 r with Some r' => r' | None => r end in
              let dot := match SkipSymbol 46 r with Some _ => true | None => false end in
              if dot && time_IsExpecting st n then
                match time_Add st n with
                | Some st1 =>
                    match r1 with
                    | Number ms len :: r2 =>
                        legacy fuel (time_AddFinal st1 (ReadMilliseconds ms len)) r2
                    | _ => None
                    end
                | None => None
                end
              else if tz_IsExpecting st then legacy fuel (SetAbsoluteMinute st (Some n)) r1
              else if time_IsExpecting st n then
                if ends_time r1 then legacy fuel (time_AddFinal st n) r1 else None
              else
                match day_Add st n with
                | Some st1 =>
                    match SkipSymbol 45 r1 with
                    | Some r2 => legacy fuel st1 r2
                    | None => legacy fuel st1 r1
                    end
                | None => None
                end
          end
      | Keyword type value _ :: r =>
          if KeywordType_eqb type AM_PM && negb (time_IsEmpty st)
          then legacy fuel (SetHourOffset st value) r
          else if KeywordType_eqb type MONTH_NAME then
            match SkipSymbol 45 r with
            | Some r1 => legacy fuel (SetNamedMonth st value) r1
            | None => legacy fuel (SetNamedMonth st value) r
            end
          else if KeywordType_eqb type TIME_ZONE_NAME && has_read_number st
          then legacy fuel (tz_Set st value) r
          else if has_read_number st then None
          else if peek_IsNumber r then None
          else legacy fuel st r
      | Symbol c :: r =>
          if is_sign c && (tz_IsUTC st || negb (time_IsEmpty st)) then
            let st := tz_SetSign st (ascii_sign c) in
            let '(n, length, r1) :=
              match r with
              | Number n length :: r' => (n, length, r')
              | _ => (0, 0%nat, r)
              end in
            let st := read_number st in
            match r1 with
            | Symbol c' :: _ =>
                if JS.code c' =? 58
                then legacy fuel (SetAbsoluteMinute (SetAbsoluteHour st n) None) r1
                else
                  match length with
                  | 1%nat | 2%nat =>
                      legacy fuel (SetAbsoluteMinute (SetAbsoluteHour st n) (Some 0)) r1
                  | 3%nat | 4%nat =>
                      legacy fuel (SetAbsoluteMinute (SetAbsoluteHour st (n / 100))
                                                     (Some (n mod 100))) r1
                  | _ => None
                  end
            | _ =>
                match length with
                | 1%nat | 2%nat =>
                    legacy fuel (SetAbsoluteMinute (SetAbsoluteHour st n) (Some 0)) r1
                | 3%nat | 4%nat =>
                    legacy fuel (SetAbsoluteMinute (SetAbsoluteHour st (n / 100))
                                                   (Some (n mod 100))) r1
                | _ => None
                end
            end
          else if (is_sign c || (JS.code c =? 41)) && has_read_number st then None
          else legacy fuel st r
      | WhiteSpace :: r => legacy fuel st r
      | Unknown :: r => legacy fuel st r
      end
  end.

(** *** The ISO prefix *)

(** What the ISO reading leaves: a text that is no date, a date read to its
    end, or the tokens for the loop above. *)
Inductive Prefix : Type :=
| Invalid
| EndOfInput (st : Composers)
| Unhandled (st : Composers) (rest : list DateToken).

(** The zone after an ISO time: [Z], [+hh:mm] or [+hhmm]. *)
Definition iso_zone (st : Composers) (l : list DateToken) : option (Composers * list DateToken) :=
  match l with
  | Keyword TIME_ZONE_NAME _ 1 :: r => Some (tz_Set st 0, r)
  | Symbol c :: r =>
      if is_sign c then
        let st := tz_SetSign st (ascii_sign c) in
        match r with
        | Number hourmin 4 :: r1 =>
            let hour := hourmin / 100 in
            let min := hourmin mod 100 in
            if IsHour hour && IsMinute min
            then Some (SetAbsoluteMinute (SetAbsoluteHour st hour) (Some min), r1)
            else None
        | Number hour 2 :: Symbol colon :: Number min 2 :: r1 =>
            if IsHour hour && (JS.code colon =? 58) && IsMinute min
            then Some (SetAbsoluteMinute (SetAbsoluteHour st hour) (Some min), r1)
            else None
        | _ => None
        end
      else Some (st, l)
  | _ => Some (st, l)
  end.

(** ['T'HH:mm[:ss[.sss]]] and the zone, which must end the text. *)
Definition iso_time (st : Composers) (l : list DateToken) : Prefix :=
  match l with
  | Number hour 2 :: Symbol c1 :: Number minute 2 :: r =>
      let hour_is_24 := hour =? 24 in
      if negb (Between hour 0 24) || negb (JS.code c1 =? 58)
         || negb (IsMinute minute) || (hour_is_24 && (0 <? minute))
      then Invalid
      else
        match time_Add st hour with
        | Some st1 =>
            match time_Add st1 minute with
            | Some st2 =>
                let seconds : option (Composers * list DateToken) :=
                  match SkipSymbol 58 r with
                  | Some (Number second 2 :: r1) =>
                      if negb (IsSecond second) || (hour_is_24 && (0 <? second)) then None
                      else
                        match time_Add st2 second with
                        | Some st3 =>
                            match SkipSymbol 46 r1 with
                            | Some (Number ms len :: r2) =>
                                if hour_is_24 && (0 <? ms) then None
                                else
                                  match time_Add st3 (ReadMilliseconds ms len) with
                                  | Some st4 => Some (st4, r2)
                                  | None => None
                                  end
                            | Some _ => None
                            | None => Some (st3, r1)
                            end
                        | None => None
                        end
                  | Some _ => None
                  | None => Some (st2, r)
                  end in
                match seconds with
                | Some (st3, r1) =>
                    match iso_zone st3 r1 with
                    | Some (st4, []) => EndOfInput st4
                    | _ => Invalid
                    end
                | None => Invalid
                end
            | None => Invalid
            end
        | None => Invalid
        end
  | _ => Invalid
  end.

(** After the year: [-MM[-DD]], then the time or the end of the text. A
    date alone is on UTC, a date with a time and no zone in the host's. *)
Definition iso_rest (st : Composers) (l : list DateToken) : Prefix :=
  let finish (st : Composers) (l : list DateToken) : Prefix :=
    let done (st : Composers) : Prefix :=
      EndOfInput (set_iso_date (if tz_IsEmpty st && time_IsEmpty st then tz_Set st 0 else st)) in
    match l with
    | [] => done st
    | Keyword TIME_SEPARATOR _ _ :: r =>
        match iso_time st r with
        | EndOfInput st' => done st'
        | other => other
        end
    | _ => Unhandled st l
    end in
  match SkipSymbol 45 l with
  | Some (Number month 2 :: r) =>
      if IsMonth month then
        match day_Add st month with
        | Some st1 =>
            match SkipSymbol 45 r with
            | Some (Number d 2 :: r1) =>
                if IsDay d then
                  match day_Add st1 d with
                  | Some st2 => finish st2 r1
                  | None => Invalid
                  end
                else Unhandled st1 (Number d 2 :: r1)
            | Some r1 => Unhandled st1 r1
            | None => finish st1 r
            end
        | None => Invalid
        end
      else Unhandled st (Number month 2 :: r)
  | Some r => Unhandled st r
  | None => finish st l
  end.

(** [[+-]yyyyyy] or [yyyy] opens an ISO date; any other first token goes to
    the loop. *)
Definition ParseES5DateTime (l : list DateToken) : Prefix :=
  match l with
  | Symbol c :: r =>
      if is_sign c then
        match r with
        | Number year 6 :: r1 =>
            if (ascii_sign c <? 0) && (year =? 0) then Unhandled empty r1
            else
              match day_Add empty (ascii_sign c * year) with
              | Some st => iso_rest st r1
              | None => Invalid
              end
        | _ => Unhandled empty l
        end
      else Unhandled empty l
  | Number year 4 :: r =>
      match day_Add empty year with
      | Some st => iso_rest st r
      | None => Invalid
      end
  | _ => Unhandled empty l
  end.

(** *** Writing the fields *)

Definition nth_comp (l : list Z) (i : nat) : Z := nth i l 0.

(** Year, month (1..12) and day. Missing parts are 1; without a month name
    a first number that is no day is the year; a year below 100 is moved
    into 1950..2049. *)
Definition day_Write (d : DayComposer) : option (Z * Z * Z) :=
  match day_comp d with
  | [] => None
  | _ =>
      let comp := pad 3 1 (day_comp d) in
      let c0 := nth_comp comp 0 in
      let c1 := nth_comp comp 1 in
      let c2 := nth_comp comp 2 in
      let '(year, month, day) :=
        match named_month d with
        | None =>
            if is_iso_date d || negb (IsDay c0) then (c0, c1, c2) else (c2, c0, c1)
        | Some m =>
            if negb (IsDay c0) then (c0, m, c1) else (c1, m, c0)
        end in
      let year :=
        if is_iso_date d then year
        else if Between year 0 49 then year + 2000
        else if Between year 50 99 then year + 1900
        else year in
      if IsMonth month && IsDay day then Some (year, month, day) else None
  end.

(** Hour, minute, second and millisecond; [AM] and [PM] apply to an hour of
    0..12, and 24:00:00 is allowed. *)
Definition time_Write (t : TimeComposer) : option (Z * Z * Z * Z) :=
  let comp := pad 4 0 (time_comp t) in
  let hour := nth_comp comp 0 in
  let minute := nth_comp comp 1 in
  let second := nth_comp comp 2 in
  let millisecond := nth_comp comp 3 in
  let hour' :=
    match hour_offset t with
    | Some off => if IsHour12 hour then Some (hour mod 12 + off) else None
    | None => Some hour
    end in
  match hour' with
  | Some hour =>
      if (IsHour hour && IsMinute minute && IsSecond second && IsMillisecond millisecond)
         || ((hour =? 24) && (minute =? 0) && (second =? 0) && (millisecond =? 0))
      then Some (hour, minute, second, millisecond)
      else None
  | None => None
  end.

(** The offset in seconds, or [Some None] when the text names no zone. *)
Definition tz_Write (z : TimeZoneComposer) : option (option Z) :=
  match tz_sign z with
  | Some sign =>
      let hour := match tz_hour z with Some h => h | None => 0 end in
      let minute := match tz_minute z with Some m => m | None => 0 end in
      let total_seconds := (hour * 3600 + minute * 60) mod 4294967296 in
      if 1073741823 <? total_seconds then None
      else Some (Some (sign * total_seconds))
  | None => Some None
  end.

Definition Parse (s : string) : option (Z * Z * Z * (Z * Z * Z * Z) * option Z) :=
  let l := tokens s in
  let read :=
    match ParseES5DateTime l with
    | Invalid => None
    | EndOfInput st => Some st
    | Unhandled st rest =>
        legacy (S (List.length rest))
               (if day_IsEmpty st then st else read_number st) rest
    end in
  match read with
  | Some st =>
      match day_Write (day st), time_Write (time st), tz_Write (tz st) with
      | Some (year, month, d), Some hms, Some offset => Some (year, month, d, hms, offset)
      | _, _, _ => None
      end
  | None => None
  end.

(** The time value of a text on a host [zone] milliseconds east of
    Greenwich: [MakeDate(MakeDay, MakeTime)], moved by the zone read from
    the text or, without one, by the host's. *)
Definition ParseDateTimeString (zone : Z) (s : string) : option Z :=
  match Parse s with
  | Some (year, month, d, (hour, minute, second, millisecond), offset) =>
      if Between year (-1000000) 1000000 then
        let date :=
          (Date.days_from_civil year month 1 + d - 1) * Date.msPerDay
          + hour * 3600000 + minute * 60000 + second * 1000 + millisecond in
        match offset with
        | Some seconds => Some (date - seconds * 1000)
        | None => Some (date - zone)
        end
      else None
  | None => None
  end.

End DateParser.

(* ================================================================== *)
(** ** Concrete hosts                                                *)

(** Hosts that run the engine's parser on a fixed offset from Greenwich. *)

(** A host whose clock is on UTC, the usual setting of a server. *)
Definition host_utc : Host :=
  {| Date_parse := DateParser.ParseDateTimeString 0; LocalTZA := fun _ => 0 |}.

(** A host whose zone is fixed at five hours west (EST without DST). *)
Definition host_est : Host :=
  {| Date_parse := DateParser.ParseDateTimeString (-18000000); LocalTZA := fun _ => -18000000 |}.

(** A host in India, five and a half hours east. *)
Definition host_ist : Host :=
  {| Date_parse := DateParser.ParseDateTimeString 19800000; LocalTZA := fun _ => 19800000 |}.


(* ================================================================== *)
(** ** Conversions applied to payload values                           *)

(** Numbers are read and printed as exact integers, which is what the
    engine does below 2^53; a numeric string with a fraction or an exponent
    is outside the model and reads as [NaN]. *)
Module Conv.

(** [ToString], as applied by a template literal. An array joins its
    elements with commas, [null] elements printing as nothing. *)
Fixpoint json_toString (j : json) : string :=
  match j with
  | JNull => "null"
  | JBool true => "true"
  | JBool false => "false"
  | JNum z => JS.Z_toString z
  | JStr s => s
  | JArr items =>
      (fix join (l : list json) : string :=
         match l with
         | [] => ""
         | x :: r =>
             let sx := match x with JNull => "" | _ => json_toString x end in
             match r with
             | [] => sx
             | _ :: _ => sx ++ "," ++ join r
             end
         end) items
  | JObj _ => "[object Object]"
  end.

Definition ToString (v : jsval) : string :=
  match v with
  | None => "undefined"
  | Some j => json_toString j
  end.

(** The value of a digit in the given radix. *)
Definition digit_val (radix : Z) (c : ascii) : option Z :=
  let n := JS.code c in
  let v :=
    if (48 <=? n) && (n <=? 57) then n - 48
    else if (97 <=? n) && (n <=? 122) then n - 87
    else if (65 <=? n) && (n <=? 90) then n - 55
    else radix in
  if v <? radix then Some v else None.

(** The value of the longest prefix of digits; [acc] is [None] until a
    digit has been read. *)
Fixpoint digits_prefix (radix : Z) (acc : option Z) (s : string) : option Z :=
  match s with
  | EmptyString => acc
  | String c r =>
      match digit_val radix c with
      | Some v =>
          digits_prefix radix
            (Some (radix * match acc with Some a => a | None => 0 end + v)) r
      | None => acc
      end
  end.

(** [parseInt(string)] with no radix argument. *)
Definition parseInt_string (input : string) : option Z :=
  let s := JS.trimStart input in
  let negative := prefix "-" s in
  let s := if prefix "-" s || prefix "+" s then JS.drop 1 s else s in
  let hex := prefix "0x" s || prefix "0X" s in
  let s := if hex then JS.drop 2 s else s in
  let value := digits_prefix (if hex then 16 else 10) None s in
  option_map (fun n => if negative then - n else n) value.

Definition parseInt (v : jsval) : option Z := parseInt_string (ToString v).

(** All of the string is digits, and there is at least one. *)
Definition all_digits (radix : Z) (s : string) : option Z :=
  match s with
  | EmptyString => None
  | _ =>
      (fix go (acc : Z) (s : string) : option Z :=
         match s with
         | EmptyString => Some acc
         | String c r =>
             match digit_val radix c with
             | Some v => go (radix * acc + v) r
             | None => None
             end
         end) 0 s
  end.

(** [ToNumber] of a string, on the integer literals: blank text is 0, a
    decimal literal may carry a sign, a hexadecimal one may not. Literals
    with a fraction or an exponent, and [Infinity], denote no integer of
    this model and read as [NaN]. *)
Definition StringToNumber (input : string) : option Z :=
  let s := JS.trim input in
  match s with
  | EmptyString => Some 0
  | _ =>
      if prefix "0x" s || prefix "0X" s then all_digits 16 (JS.drop 2 s)
      else if prefix "-" s then option_map Z.opp (all_digits 10 (JS.drop 1 s))
      else if prefix "+" s then all_digits 10 (JS.drop 1 s)
      else all_digits 10 s
  end.

(** [ToNumber]. *)
Definition ToNumber (v : jsval) : option Z :=
  match v with
  | None => None
  | Some JNull => Some 0
  | Some (JBool b) => Some (if b then 1 else 0)
  | Some (JNum z) => Some z
  | Some (JStr s) => StringToNumber s
  | Some (JArr l) => StringToNumber (json_toString (JArr l))
  | Some (JObj _) => None
  end.

(** [a - b] on numbers. *)
Definition sub (a b : option Z) : option Z :=
  match a, b with
  | Some x, Some y => Some (x - y)
  | _, _ => None
  end.

End Conv.

(* ================================================================== *)
(** ** Array.prototype.sort                                            *)

(** The engine's sort is stable; with a comparator that orders the
    elements consistently every stable sort returns the same array, and
    insertion from the right is the one written here. The comparator says
    that its first argument goes after the second by returning a positive
    number; [NaN] counts as 0. An exception of the comparator ends the
    sort. An array of fewer than two elements is never compared. *)
Module Sort.

Definition positive (v : option Z) : bool :=
  match v with
  | Some z => 0 <? z
  | None => false
  end.

Section Pure.
Context {A : Type} (cmp : A -> A -> option Z).

Fixpoint insert (x : A) (l : list A) : list A :=
  match l with
  | [] => [x]
  | y :: r => if positive (cmp x y) then y :: insert x r else x :: l
  end.

Fixpoint sort (l : list A) : list A :=
  match l with
  | [] => []
  | x :: r => insert x (sort r)
  end.
End Pure.

Section Throwing.
Context {A : Type} (cmp : A -> A -> Completion (option Z)).

Fixpoint insertC (x : A) (l : list A) : Completion (list A) :=
  match l with
  | [] => Normal [x]
  | y :: r =>
      v <- cmp x y ;;
      if positive v then (r' <- insertC x r ;; Normal (y :: r'))
      else Normal (x :: l)
  end.

Fixpoint sortC (l : list A) : Completion (list A) :=
  match l with
  | [] => Normal []
  | x :: r => r' <- sortC r ;; insertC x r'
  end.
End Throwing.

End Sort.

(* ================================================================== *)
(** ** The leaderboard                                                 *)

Definition nl : string := String (ascii_of_nat 10) EmptyString.

(** The three values that one entry of the leaderboard displays. *)
Record LeaderboardRecord : Type := {
  nickname : string;
  voteCount : string;
  lastActivityDisplay : string
}.

Record Embed : Type := {
  title : jsval;
  color : Z;
  timestamp : Z;
  footer : string;
  description : string
}.

(** What [EmbedBuilder] of discord.js checks of the two values the source
    computes for it: a title is [null] or a string of 1 to 256 code units, a
    description a string of 1 to 4096; a setter throws on any other value.
    The colour, the footer and the timestamp are constants that pass. *)
Module EmbedBuilder.

Definition within (lo hi : nat) (s : string) : bool :=
  (lo <=? String.length s)%nat && (String.length s <=? hi)%nat.

Definition setTitle (title : jsval) : Completion jsval :=
  match title with
  | Some JNull => Normal title
  | Some (JStr s) => if within 1 256 s then Normal title else Throw "ValidationError"
  | _ => Throw "ValidationError"
  end.

Definition setDescription (description : string) : Completion string :=
  if within 1 4096 description then Normal description else Throw "ValidationError".

End EmbedBuilder.

(** [array.filter(pred)] with a predicate that may throw. *)
Fixpoint filterC {A} (pred : A -> Completion bool) (l : list A) : Completion (list A) :=
  match l with
  | [] => Normal []
  | x :: r =>
      b <- pred x ;;
      r' <- filterC pred r ;;
      Normal (if b then x :: r' else r')
  end.

(** A method of arrays called on a value: a [TypeError] unless the value is
    an array. *)
Definition as_array (v : jsval) : Completion (list json) :=
  match v with
  | Some (JArr l) => Normal l
  | _ => Throw "TypeError"
  end.

(** [(a, b) => b.timestamp - a.timestamp]. *)
Definition by_timestamp (a b : json) : Completion (option Z) :=
  tb <- Val.get (Some b) "timestamp" ;;
  ta <- Val.get (Some a) "timestamp" ;;
  Normal (Conv.sub (Conv.ToNumber tb) (Conv.ToNumber ta)).

(** [(a, b) => parseInt(b.votes) - parseInt(a.votes)]. *)
Definition by_votes (a b : json) : Completion (option Z) :=
  vb <- Val.get (Some b) "votes" ;;
  va <- Val.get (Some a) "votes" ;;
  Normal (Conv.sub (Conv.parseInt vb) (Conv.parseInt va)).

(** The result is [None] for [null]. *)
Definition getLatestTimestampForUser (timestamps : jsval) (nick : jsval)
  : Completion (option json) :=
  votes <- Val.get timestamps "votes" ;;
  votes <- as_array votes ;;
  userVotes <- filterC (fun vote =>
                 n <- Val.get (Some vote) "nickname" ;;
                 Normal (Val.strict_eq n nick)) votes ;;
  match userVotes with
  | [] => Normal None
  | _ :: _ =>
      userVotes <- Sort.sortC by_timestamp userVotes ;;
      Normal (hd_error userVotes)
  end.

Section Render.
Variable host : Host.

(** The values interpolated by one turn of the [forEach]. *)
Definition record_of (timestampData : jsval) (voter : json)
  : Completion LeaderboardRecord :=
  nick <- Val.get (Some voter) "nickname" ;;
  latestVote <- getLatestTimestampForUser timestampData nick ;;
  lastVoteDate <-
    match latestVote with
    | Some vote =>
        d <- Val.get (Some vote) "date" ;;
        Normal (convertESTtoIST host d)
    | None => Normal "Unknown"
    end ;;
  votes <- Val.get (Some voter) "votes" ;;
  Normal {| nickname := Conv.ToString nick;
            voteCount := Conv.ToString votes;
            lastActivityDisplay := lastVoteDate |}.

(** What one turn appends to [description]; [index] counts from 0. *)
Definition entry (index : Z) (r : LeaderboardRecord) : string :=
  ("**" ++ JS.Z_toString (index + 1) ++ ".** " ++ nickname r ++ nl) ++
  ("**Votes:** " ++ voteCount r ++ nl) ++
  ("**Last Vote:** " ++ lastActivityDisplay r ++ nl ++ nl).

(** [sortedVoters.forEach((voter, index) => ...)] on the accumulator
    [description]. *)
Fixpoint forEach_voter (timestampData : jsval) (voters : list json)
  (index : Z) (description : string) : Completion string :=
  match voters with
  | [] => Normal description
  | voter :: rest =>
      r <- record_of timestampData voter ;;
      forEach_voter timestampData rest (index + 1) (description ++ entry index r)
  end.

(** [voteData.voters.sort(...)], which throws on a value that is no
    array. *)
Definition sortedVoters (voteData : jsval) : Completion (list json) :=
  voters <- Val.get voteData "voters" ;;
  voters <- as_array voters ;;
  Sort.sortC by_votes voters.

(** The result is [None] for [null]. The title is set once the voters are
    sorted and before the loop over them; the description when the loop is
    over. *)
Definition createVoteEmbed (now : Z) (voteData timestampData : jsval)
  : Completion (option Embed) :=
  if negb (Val.truthy voteData) then Normal None
  else
    voters <- Val.get voteData "voters" ;;
    if negb (Val.truthy voters) || negb (Val.truthy timestampData) then Normal None
    else
      sorted <- sortedVoters voteData ;;
      name <- Val.get voteData "name" ;;
      title <- EmbedBuilder.setTitle (Val.or_else name (Some (JStr "Minecraft Server"))) ;;
      description <-
        match sorted with
        | [] => Normal "No votes this month yet!"
        | _ :: _ => forEach_voter timestampData sorted 0 ""
        end ;;
      description <- EmbedBuilder.setDescription description ;;
      Normal (Some {| title := title;
                      color := 44678;
                      timestamp := now;
                      footer := "Vote Tracker Bot";
                      description := description |}).

(** The ordered records behind the description: the sorted voters, each
    with the values its turn of the loop interpolates. *)
Definition shape (voteData timestampData : jsval)
  : Completion (list LeaderboardRecord) :=
  sorted <- sortedVoters voteData ;;
  mapC (record_of timestampData) sorted.
End Render.

(* ================================================================== *)
(** ** The persisted row and the collaborators                         *)

(** A document of the [VoteData] collection. *)
Record VoteData : Type := {
  serverId : string;
  lastUpdateHash : string;
  lastMessageId : option string;
  createdAt : Z;
  updatedAt : Z
}.

(** [new VoteData({ serverId })] with the defaults of the schema. *)
Definition new_VoteData (key : string) (now : Z) : VoteData :=
  {| serverId := key;
     lastUpdateHash := "";
     lastMessageId := None;
     createdAt := now;
     updatedAt := now |}.

(** Truthiness of [storedData.lastMessageId]. *)
Definition has_message (row : VoteData) : option string :=
  match lastMessageId row with
  | Some id => if String.eqb id "" then None else Some id
  | None => None
  end.

(** The promise of [axios.get]. *)
Inductive Response : Type :=
| Rejected
| Resolved (data : jsval).

(** The promise of [channel.messages.fetch(id)]: the message, or a rejection
    that is either the transport's definite "unknown message" or any other
    failure of the request. *)
Inductive Probe : Type :=
| Found
| NotFound
| TransientError.

(** The promise of [client.channels.fetch(id)]. *)
Inductive Channel : Type :=
| ChannelRejected
| ChannelNull
| ChannelOk.

(** What the collaborators answer during one cycle. *)
Record World : Type := {
  serverKey : string;
  clock : Z;
  channels_fetch : Channel;
  voters_get : Response;
  votes_get : Response;
  findOne_ok : bool;
  messages_fetch : string -> Probe;
  edit_ok : string -> Embed -> bool;
  send : option Embed -> Completion string;
  save_ok : VoteData -> bool
}.

(** What a cycle does that can be seen from outside. *)
Inductive Event : Type :=
| Log (line : string)
| Sent (embed : option Embed) (id : string)
| Edited (id : string) (embed : Embed)
| Saved (row : VoteData).

(** The state threaded through a cycle: the events so far and the stored
    row of this server. *)
Record St : Type := {
  trace : list Event;
  db : option VoteData
}.

(** Effectful code: a state transformer that completes or throws. *)
Definition M (A : Type) : Type := St -> St * Completion A.

Definition ret {A} (a : A) : M A := fun s => (s, Normal a).

Definition bind {A B} (m : M A) (k : A -> M B) : M B :=
  fun s =>
    match m s with
    | (s', Normal a) => k a s'
    | (s', Throw e) => (s', Throw e)
    end.

Notation "x <~ m ;; k" := (bind m (fun x => k))
  (at level 61, m at next level, right associativity).
Notation "m >> k" := (bind m (fun _ => k))
  (at level 61, right associativity).

Definition lift {A} (c : Completion A) : M A := fun s => (s, c).

Definition emit (e : Event) : M unit :=
  fun s => ({| trace := trace s ++ [e]; db := db s |}, Normal tt).

Definition log (line : string) : M unit := emit (Log line).

(** [try { m } catch { handler }]. *)
Definition try_catch {A} (m : M A) (handler : M A) : M A :=
  fun s =>
    match m s with
    | (s', Normal a) => (s', Normal a)
    | (s', Throw _) => handler s'
    end.

Section Cycle.
Variable host : Host.
Variable w : World.

Definition fetchVoteCount : M jsval :=
  match voters_get w with
  | Resolved data => ret data
  | Rejected => log "Error fetching vote count:" >> ret (Some JNull)
  end.

Definition fetchVoteTimestamps : M jsval :=
  match votes_get w with
  | Resolved data => ret data
  | Rejected => log "Error fetching vote timestamps:" >> ret (Some JNull)
  end.

Definition channel_fetch : M bool :=
  match channels_fetch w with
  | ChannelRejected => lift (Throw "channels.fetch")
  | ChannelNull => ret false
  | ChannelOk => ret true
  end.

Definition findOne : M (option VoteData) :=
  fun s => if findOne_ok w then (s, Normal (db s)) else (s, Throw "findOne").

Definition message_fetch (id : string) : M unit :=
  match messages_fetch w id with
  | Found => ret tt
  | NotFound => lift (Throw "Unknown Message")
  | TransientError => lift (Throw "request failed")
  end.

Definition message_edit (id : string) (embed : Embed) : M unit :=
  if edit_ok w id embed then emit (Edited id embed) else lift (Throw "edit").

Definition channel_send (embed : option Embed) : M string :=
  id <~ lift (send w embed) ;;
  emit (Sent embed id) >> ret id.

Definition save (row : VoteData) : M unit :=
  fun s =>
    if save_ok w row
    then ({| trace := trace s ++ [Saved row]; db := Some row |}, Normal tt)
    else (s, Throw "save").

(** The statements inside the outer [try] of [updateVoteMessage]. *)
Definition updateVoteMessage_try : M unit :=
  channel <~ channel_fetch ;;
  if negb channel then log "Channel not found"
  else
    voteData <~ fetchVoteCount ;;
    timestampData <~ fetchVoteTimestamps ;;
    if negb (Val.truthy voteData) || negb (Val.truthy timestampData)
    then log "Failed to fetch data from API"
    else
      let newHash := generateDataHash voteData timestampData in
      found <~ findOne ;;
      let storedData :=
        match found with
        | Some row => row
        | None => new_VoteData (serverKey w) (clock w)
        end in
      if String.eqb (lastUpdateHash storedData) newHash then
        try_catch
          (match has_message storedData with
           | Some id =>
               message_fetch id >>
               log "No changes detected, message still exists"
           | None => log "No changes detected, but no message found"
           end)
          (log "Message was deleted. Reposting..." >>
           embed <~ lift (createVoteEmbed host (clock w) voteData timestampData) ;;
           newId <~ channel_send embed ;;
           save {| serverId := serverId storedData;
                   lastUpdateHash := newHash;
                   lastMessageId := Some newId;
                   createdAt := createdAt storedData;
                   updatedAt := clock w |})
      else
        embed <~ lift (createVoteEmbed host (clock w) voteData timestampData) ;;
        match embed with
        | None => log "Failed to create embed"
        | Some e =>
            messageId <~
              match has_message storedData with
              | Some id =>
                  try_catch
                    (message_fetch id >>
                     message_edit id e >>
                     log "Updated existing message" >>
                     ret (lastMessageId storedData))
                    (newId <~ channel_send (Some e) ;;
                     log "Previous message not found, sent new message" >>
                     ret (Some newId))
              | None =>
                  newId <~ channel_send (Some e) ;;
                  log "Sent first vote message" >>
                  ret (Some newId)
              end ;;
            save {| serverId := serverId storedData;
                    lastUpdateHash := newHash;
                    lastMessageId := messageId;
                    createdAt := createdAt storedData;
                    updatedAt := clock w |} >>
            log "Vote message updated successfully"
        end.

(** The whole method: whatever is thrown inside is logged and dropped. *)
Definition updateVoteMessage : M unit :=
  try_catch updateVoteMessage_try (log "Error updating vote message:").

(** One cycle on a stored row: the events and the row afterwards. *)
Definition cycle (row : option VoteData) : St * Completion unit :=
  updateVoteMessage {| trace := []; db := row |}.
End Cycle.

(** The messages published, the edits made and the rows written. *)
Definition sent_of (tr : list Event) : list (option Embed * string) :=
  flat_map (fun e => match e with Sent em id => [(em, id)] | _ => [] end) tr.

Definition edited_of (tr : list Event) : list (string * Embed) :=
  flat_map (fun e => match e with Edited id em => [(id, em)] | _ => [] end) tr.

Definition saved_of (tr : list Event) : list VoteData :=
  flat_map (fun e => match e with Saved row => [row] | _ => [] end) tr.

(* ================================================================== *)
(** ** The reporting period and the monitoring loop                    *)

Section Period.
Variable host : Host.

(** [now] is the time value of [new Date()]. *)
Definition getCurrentPeriod (now : Z) : string :=
  let year := Date.getFullYear host (Some now) in
  let month :=
    JS.padStart2
      (JS.num_toString (option_map (fun m => m + 1) (Date.getMonth host (Some now)))) in
  JS.num_toString year ++ month.
End Period.

(** One tick of the timer: a cycle on the row that the store holds, its
    events appended to those so far. *)
Definition run_tick (host : Host) (s : St) (w : World) : St :=
  let s' := fst (cycle host w (db s)) in
  {| trace := trace s ++ trace s'; db := db s' |}.

(** [startVoteMonitoring]: one cycle at once and one more on every tick of
    the interval, here one world per cycle. The cycles are taken one after
    the other; a cycle that outlasts the interval is not covered. *)
Definition startVoteMonitoring (host : Host) (ticks : list World) (row : option VoteData)
  : St :=
  fold_left (run_tick host) ticks
    {| trace := [Log "Starting vote monitoring..."]; db := row |}.

(* ================================================================== *)
(** * Vocabulary of the properties                                     *)

(** ** Numerals *)

(** Reading a decimal numeral back. *)
Definition read_decimal (s : string) : option Z :=
  option_map Z.of_int (NilZero.int_of_string s).

(** The signed 32-bit integers. *)
Definition int32 (z : Z) : Prop := -2147483648 <= z < 2147483648.

(** ** Orders *)

(** The comparator [(a, b) => key(b) - key(a)] on keys that are numbers. *)
Definition desc {A : Type} (key : A -> Z) (a b : A) : option Z := Some (key b - key a).

Definition ge_key {A : Type} (key : A -> Z) (a b : A) : Prop := key b <= key a.


(** ** The leaderboard records *)

Definition nick_of (v : json) : jsval := Val.get_opt (Some v) "nickname".
Definition votes_of (v : json) : option Z := Conv.parseInt (Val.get_opt (Some v) "votes").
Definition timestamp_of (e : json) : option Z :=
  Conv.ToNumber (Val.get_opt (Some e) "timestamp").

Definition number_or_zero (n : option Z) : Z :=
  match n with
  | Some z => z
  | None => 0
  end.

Definition votes_key (v : json) : Z := number_or_zero (votes_of v).
Definition timestamp_key (e : json) : Z := number_or_zero (timestamp_of e).


(** An entry of the standings whose votes read as a number, and an entry
    of the event log whose timestamp is a number. *)
Definition wf_voter (v : json) : Prop := v <> JNull /\ votes_of v <> None.
Definition wf_event (e : json) : Prop := e <> JNull /\ timestamp_of e <> None.

(** The events of one nickname, in the order received. *)
Definition matching (events : list json) (nick : jsval) : list json :=
  filter (fun e => Val.strict_eq (nick_of e) nick) events.



(** ** The rendered body *)

(** One entry of the numbered list, with its rank. *)
Definition line (rank : Z) (r : LeaderboardRecord) : string :=
  "**" ++ JS.Z_toString rank ++ ".** " ++ nickname r ++ nl ++
  "**Votes:** " ++ voteCount r ++ nl ++
  "**Last Vote:** " ++ lastActivityDisplay r ++ nl ++ nl.

(** The list numbered from [rank] on. *)
Fixpoint numbered (rank : Z) (rs : list LeaderboardRecord) : string :=
  match rs with
  | [] => ""
  | r :: rest => line rank r ++ numbered (rank + 1) rest
  end.

(** The body of the message for a list of records. *)
Definition body (rs : list LeaderboardRecord) : string :=
  match rs with
  | [] => "No votes this month yet!"
  | _ :: _ => numbered 1 rs
  end.

(** The value handed to [setTitle]: [voteData.name || 'Minecraft Server']. *)
Definition title_of (vd : jsval) : jsval :=
  Val.or_else (Val.get_opt vd "name") (Some (JStr "Minecraft Server")).

(** A title that the builder accepts: a string of 1 to 256 code units. *)
Definition valid_title (v : jsval) : Prop :=
  exists s, v = Some (JStr s) /\ (1 <= String.length s <= 256)%nat.


(** ** The reconciliation cycle *)

(** The preconditions of reconciliation: the channel resolves, both payloads
    arrive and are truthy, and the store answers the query. *)
Definition ready (w : World) (vd td : jsval) : Prop :=
  channels_fetch w = ChannelOk /\
  voters_get w = Resolved vd /\
  votes_get w = Resolved td /\
  Val.truthy vd = true /\
  Val.truthy td = true /\
  findOne_ok w = true.

(** A request that the fetch step takes for failed: it was rejected, or it
    resolved with a falsy body. *)
Definition failed (r : Response) : Prop :=
  match r with
  | Rejected => True
  | Resolved data => Val.truthy data = false
  end.

(** The row written by a cycle that started from [row]. *)
Definition row_after (w : World) (vd td : jsval) (row : VoteData)
    (messageId : option string) : VoteData :=
  {| serverId := serverId row;
     lastUpdateHash := generateDataHash vd td;
     lastMessageId := messageId;
     createdAt := createdAt row;
     updatedAt := clock w |}.

(** The lines that only the branch of an unchanged hash writes. *)
Definition unchanged_lines : list string :=
  ["No changes detected, message still exists";
   "No changes detected, but no message found";
   "Message was deleted. Reposting..."].

(** ** Sample payloads, in the provider's layout *)

Module Sample.

Definition voter (nick votes : string) : json :=
  JObj [("nickname", JStr nick); ("votes", JStr votes)].

Definition vote (nick date : string) (ts : Z) (claimed : string) : json :=
  JObj [("date", JStr date); ("timestamp", JNum ts); ("nickname", JStr nick);
        ("steamid", JStr ""); ("claimed", JStr claimed)].

Definition standings (name : string) (voters : list json) : jsval :=
  Some (JObj [("name", JStr name); ("voters", JArr voters)]).

Definition events (votes : list json) : jsval :=
  Some (JObj [("name", JStr "Srv"); ("votes", JArr votes)]).

Definition july23 : string := "July 23rd, 2025 02:27 AM EST".

(** Two voters, received in ascending order of votes. *)
Definition vd : jsval := standings "Srv" [voter "A" "3"; voter "B" "5"].

(** The same two voters, received in descending order. *)
Definition vd_reordered : jsval := standings "Srv" [voter "B" "5"; voter "A" "3"].

(** The same voters under another server name. *)
Definition vd_renamed : jsval := standings "Other" [voter "A" "3"; voter "B" "5"].

(** One vote of A, not yet claimed. *)
Definition td : jsval := events [vote "A" july23 1753255620 "0"].

(** The same vote once claimed: a field that the leaderboard never shows. *)
Definition td_claimed : jsval := events [vote "A" july23 1753255620 "1"].

Definition shaped : list LeaderboardRecord :=
  [ {| nickname := "B"; voteCount := "5"; lastActivityDisplay := "Unknown" |};
    {| nickname := "A"; voteCount := "3";
       lastActivityDisplay := "23/07/2025, 12:57:00 PM IST" |} ].

End Sample.

(** ** Scenarios *)

Module Scenario.

(** A world where everything succeeds except, possibly, the look-up of the
    recorded message. *)
Definition world (probe : Probe) (voters votes : Response) : World :=
  {| serverKey := "key";
     clock := 1753300000000;
     channels_fetch := ChannelOk;
     voters_get := voters;
     votes_get := votes;
     findOne_ok := true;
     messages_fetch := fun _ => probe;
     edit_ok := fun _ _ => true;
     send := fun _ => Normal "m2";
     save_ok := fun _ => true |}.

Definition live (probe : Probe) : World :=
  world probe (Resolved Sample.vd) (Resolved Sample.td).

(** The row left by an earlier cycle that published message [m1]. *)
Definition row (hash : string) : VoteData :=
  {| serverId := "key";
     lastUpdateHash := hash;
     lastMessageId := Some "m1";
     createdAt := 1753200000000;
     updatedAt := 1753200000000 |}.

Definition current : string := generateDataHash Sample.vd Sample.td.

Definition embed : Embed :=
  {| title := Some (JStr "Srv");
     color := 44678;
     timestamp := 1753300000000;
     footer := "Vote Tracker Bot";
     description := numbered 1 Sample.shaped |}.

End Scenario.

(** ** Outcomes of a cycle *)

(** The events of a trace other than the lines logged. *)
Definition effects (tr : list Event) : list Event :=
  filter (fun e => match e with Log _ => false | _ => true end) tr.

(** The row that a cycle works on: the one found, or a new one. *)
Definition stored_or_new (w : World) (row : option VoteData) : VoteData :=
  match row with
  | Some r => r
  | None => new_VoteData (serverKey w) (clock w)
  end.

(** What one cycle can leave behind: nothing; a message sent or edited but
    no row written; a message sent or edited and the row written for it. *)
Inductive Outcome (w : World) (row : option VoteData) (s : St) : Prop :=
| Quiet :
    effects (trace s) = [] -> db s = row -> Outcome w row s
| Unsaved_send (embed : option Embed) (id : string) :
    effects (trace s) = [Sent embed id] -> db s = row -> Outcome w row s
| Unsaved_edit (id : string) (e : Embed) :
    has_message (stored_or_new w row) = Some id ->
    effects (trace s) = [Edited id e] -> db s = row -> Outcome w row s
| Published (vd td : jsval) (embed : option Embed) (id : string) :
    voters_get w = Resolved vd -> votes_get w = Resolved td ->
    effects (trace s)
    = [Sent embed id; Saved (row_after w vd td (stored_or_new w row) (Some id))] ->
    db s = Some (row_after w vd td (stored_or_new w row) (Some id)) ->
    Outcome w row s
| Updated (vd td : jsval) (e : Embed) (id : string) :
    voters_get w = Resolved vd -> votes_get w = Resolved td ->
    has_message (stored_or_new w row) = Some id ->
    lastMessageId (stored_or_new w row) = Some id ->
    effects (trace s)
    = [Edited id e; Saved (row_after w vd td (stored_or_new w row) (Some id))] ->
    db s = Some (row_after w vd td (stored_or_new w row) (Some id)) ->
    Outcome w row s.

(** A cycle that did nothing to the transport nor to the store. *)
Definition quiet (s : St) (row : option VoteData) : Prop :=
  sent_of (trace s) = [] /\ edited_of (trace s) = [] /\
  saved_of (trace s) = [] /\ db s = row.

(** A tick on which the recorded message [id] is live and every collaborator
    accepts what the cycle asks. *)
Definition healthy (host : Host) (id : string) (w : World) : Prop :=
  exists vd td e,
    ready w vd td /\
    messages_fetch w id = Found /\
    createVoteEmbed host (clock w) vd td = Normal (Some e) /\
    edit_ok w id e = true /\
    (forall r, save_ok w r = true).

(** ** The hash as a polynomial *)

(** The polynomial in 31 over the code units, from the left. *)
Definition horner31 (codes : list Z) : Z := fold_left (fun h c => 31 * h + c) codes 0.

(** ** Texts *)

(** Every code unit of the string passes the test. *)
Fixpoint all_chars (p : ascii -> bool) (s : string) : bool :=
  match s with
  | EmptyString => true
  | String c r => p c && all_chars p r
  end.

(** The four suffixes of the pattern. *)
Definition is_ordinal_suffix (s : string) : Prop :=
  s = "st" \/ s = "nd" \/ s = "rd" \/ s = "th".

(** ** Worlds for the examples *)

Module Case.

Definition world (chan : Channel) (voters votes : Response) (store : bool)
    (probe : Probe) (edit : bool) (sent : Completion string) (saved : bool) : World :=
  {| serverKey := "key";
     clock := 1753300000000;
     channels_fetch := chan;
     voters_get := voters;
     votes_get := votes;
     findOne_ok := store;
     messages_fetch := fun _ => probe;
     edit_ok := fun _ _ => edit;
     send := fun _ => sent;
     save_ok := fun _ => saved |}.

(** The sample payloads arrive; the transport and the store answer as given. *)
Definition sample (probe : Probe) (edit : bool) (sent : Completion string) (saved : bool)
  : World :=
  world ChannelOk (Resolved Sample.vd) (Resolved Sample.td) true probe edit sent saved.

(** The channel, the store and the transport accept whatever is asked; no
    message is there to be found. *)
Definition accepting (voters votes : Response) : World :=
  world ChannelOk voters votes true NotFound true (Normal "m2") true.

(** A row that records no message. *)
Definition row_without_message (hash : string) : VoteData :=
  {| serverId := "key";
     lastUpdateHash := hash;
     lastMessageId := None;
     createdAt := 1753200000000;
     updatedAt := 1753200000000 |}.

(** Standings with a [null] among the voters, and standings with no list. *)
Definition vd_null_voter : jsval := Sample.standings "Srv" [Sample.voter "A" "3"; JNull].
Definition vd_no_voters : jsval := Some (JObj [("error", JStr "no such server")]).

(** Standings that list no voter, and a body of the events request that is
    no JSON, as the HTTP client hands it over: the text received. *)
Definition vd_empty : jsval := Sample.standings "Srv" [].
Definition td_malformed : jsval := Some (JStr "<html>Down for maintenance</html>").

(** The sample standings under a name that is a number, and a hundred
    voters. *)
Definition vd_numbered : jsval :=
  Some (JObj [("name", JNum 5);
              ("voters", JArr [Sample.voter "A" "3"; Sample.voter "B" "5"])]).
Definition crowd : list json := repeat (Sample.voter "A" "3") 100.

(** A text with no date in it. *)
Definition garbled : string := "the day before yesterday".

(** The last evening, in the source zone, that a date can hold. *)
Definition last_evening : string := "September 12, 275760 07:00 PM EST".

End Case.

(* ================================================================== *)
(** * Properties                                                       *)

(** ** The model on sample values *)

Example stringify_ex :
  Json.stringify (JObj [("voters", JArr [JObj [("nickname", JStr "A"); ("votes", JStr "3")]]);
                        ("timestamps", JArr [])])
  = "{" ++ Json.dquote ++ "voters" ++ Json.dquote ++ ":[{" ++ Json.dquote ++ "nickname"
    ++ Json.dquote ++ ":" ++ Json.dquote ++ "A" ++ Json.dquote ++ "," ++ Json.dquote
    ++ "votes" ++ Json.dquote ++ ":" ++ Json.dquote ++ "3" ++ Json.dquote ++ "}],"
    ++ Json.dquote ++ "timestamps" ++ Json.dquote ++ ":[]}".
Proof. reflexivity. Qed.

Example hash_abc : hash_loop (JS.charCodes "abc") = 96354.
Proof. reflexivity. Qed.

Example hash_empty_payloads :
  generateDataHash (Some (JObj [])) (Some (JObj [])) = "814497316".
Proof. vm_compute. reflexivity. Qed.

Example parse_sample :
  DateParser.ParseDateTimeString 0 "July 23, 2025 02:27 AM GMT-0500" = Some 1753255620000.
Proof. vm_compute. reflexivity. Qed.

(** ** Numbers and the hash *)

Lemma Z_toString_nonempty (z : Z) : JS.Z_toString z <> "".
Proof.
  unfold JS.Z_toString.
  destruct (Z.to_int z) as [d | d]; simpl.
  - destruct d; simpl; discriminate.
  - discriminate.
Qed.

Lemma read_decimal_toString (z : Z) : read_decimal (JS.Z_toString z) = Some z.
Proof.
  unfold read_decimal, JS.Z_toString.
  rewrite NilZero.isi.
  - simpl. now rewrite DecimalZ.of_to.
  - destruct z; simpl; try discriminate.
    intros [= H]. now apply (DecimalPos.Unsigned.to_uint_nonnil p).
  - destruct z; simpl; try discriminate.
    intros [= H]. now apply (DecimalPos.Unsigned.to_uint_nonnil p).
Qed.

Lemma Z_toString_inj (a b : Z) : JS.Z_toString a = JS.Z_toString b -> a = b.
Proof.
  intros H.
  assert (E : read_decimal (JS.Z_toString a) = read_decimal (JS.Z_toString b))
    by now rewrite H.
  rewrite !read_decimal_toString in E. now injection E.
Qed.

Lemma ToInt32_range (z : Z) : int32 (JS.ToInt32 z).
Proof.
  unfold JS.ToInt32, int32.
  pose proof (Z.mod_pos_bound z 4294967296 eq_refl) as B.
  destruct (Z.leb_spec 2147483648 (z mod 4294967296)); lia.
Qed.

Lemma hash_step_range (h c : Z) : int32 (hash_step h c).
Proof. unfold hash_step, JS.band. apply ToInt32_range. Qed.

Lemma hash_loop_from_range (codes : list Z) (h : Z) :
  int32 h -> int32 (fold_left hash_step codes h).
Proof.
  revert h. induction codes as [| c codes IH]; intros h Hh; simpl.
  - exact Hh.
  - apply IH, hash_step_range.
Qed.

Lemma hash_loop_range (codes : list Z) : int32 (hash_loop codes).
Proof. apply hash_loop_from_range. unfold int32. lia. Qed.

(** ** The hash reads the raw payloads *)

Lemma append_assoc (a b c : string) : (a ++ b) ++ c = a ++ (b ++ c).
Proof. induction a as [| x a IH]; simpl; [reflexivity | now rewrite IH]. Qed.

Lemma append_nil_r (a : string) : a ++ "" = a.
Proof. induction a as [| x a IH]; simpl; [reflexivity | now rewrite IH]. Qed.

Lemma dataString_eq (voteData timestampData : jsval) :
  dataString voteData timestampData =
  "{" ++ Json.quote "voters" ++ ":" ++ Json.stringify (raw_voters voteData) ++ ","
      ++ Json.quote "timestamps" ++ ":" ++ Json.stringify (raw_timestamps timestampData)
      ++ "}".
Proof.
  unfold dataString.
  change (Json.stringify (JObj [("voters", raw_voters voteData);
                                ("timestamps", raw_timestamps timestampData)]))
    with ("{" ++ (Json.quote "voters" ++ ":" ++ Json.stringify (raw_voters voteData) ++ ","
                  ++ Json.quote "timestamps" ++ ":"
                  ++ Json.stringify (raw_timestamps timestampData)) ++ "}").
  generalize (Json.stringify (raw_voters voteData)).
  generalize (Json.stringify (raw_timestamps timestampData)).
  intros t v. simpl.
  repeat (rewrite !append_assoc; simpl). reflexivity.
Qed.

(** C1, as stated, fails: the three input pairs below all shape to the same
    two records, yet a changed [claimed] flag of a vote, or the voters
    received in another order, changes the hash. *)
Lemma generateDataHash_not_of_shape :
  shape host_est Sample.vd Sample.td = Normal Sample.shaped /\
  shape host_est Sample.vd Sample.td_claimed = Normal Sample.shaped /\
  shape host_est Sample.vd_reordered Sample.td = Normal Sample.shaped /\
  generateDataHash Sample.vd Sample.td = "-1876358437" /\
  generateDataHash Sample.vd Sample.td_claimed <> generateDataHash Sample.vd Sample.td /\
  generateDataHash Sample.vd_reordered Sample.td <> generateDataHash Sample.vd Sample.td.
Proof.
  repeat split; try (vm_compute; reflexivity);
    apply String.eqb_neq; vm_compute; reflexivity.
Qed.

(** C1, amended: the hash is a function of the serialised raw arrays, the
    [voters] of the first payload and the [votes] of the second, in the order
    and with all the fields received; anything else in the payloads, such as
    the server name, has no part in it. *)
Theorem generateDataHash_of_raw_arrays (voteData timestampData voteData' timestampData' : jsval) :
  Json.stringify (raw_voters voteData) = Json.stringify (raw_voters voteData') ->
  Json.stringify (raw_timestamps timestampData) = Json.stringify (raw_timestamps timestampData') ->
  generateDataHash voteData timestampData = generateDataHash voteData' timestampData'.
Proof.
  intros Hv Ht. unfold generateDataHash.
  rewrite !dataString_eq, Hv, Ht. reflexivity.
Qed.

Lemma generateDataHash_of_raw_arrays_witness :
  Sample.vd <> Sample.vd_renamed /\
  generateDataHash Sample.vd Sample.td = generateDataHash Sample.vd_renamed Sample.td.
Proof.
  split.
  - discriminate.
  - apply (generateDataHash_of_raw_arrays Sample.vd Sample.td Sample.vd_renamed Sample.td);
      reflexivity.
Defined.

(** ** convertESTtoIST *)

Lemma convertESTtoIST_string (host : Host) (s : string) :
  s <> "" -> s <> "Unknown" ->
  convertESTtoIST host (Some (JStr s)) = convert_string host s.
Proof.
  intros Hne Hunk. unfold convertESTtoIST. simpl.
  apply String.eqb_neq in Hne, Hunk. now rewrite Hne, Hunk.
Qed.

(** C3: the same timestamp of the provider converts to three different
    texts on three hosts that differ in their time zone only. The fields of
    the shifted date are read with the local getters, so the text is the
    Indian wall clock on a host five hours west of Greenwich and on no
    other: on a host kept on UTC the result is five hours late. *)
Theorem convertESTtoIST_follows_host_zone :
  cleaned Sample.july23 = "July 23, 2025 02:27 AM" /\
  Date_parse host_utc (cleaned Sample.july23 ++ " GMT-0500") = Some 1753255620000 /\
  convertESTtoIST host_est (Some (JStr Sample.july23)) = "23/07/2025, 12:57:00 PM IST" /\
  convertESTtoIST host_utc (Some (JStr Sample.july23)) = "23/07/2025, 5:57:00 PM IST" /\
  convertESTtoIST host_ist (Some (JStr Sample.july23)) = "23/07/2025, 11:27:00 PM IST".
Proof. repeat split; vm_compute; reflexivity. Qed.

(** What holds of the sentinels on every host: the empty string and
    ["Unknown"] come back as ["Unknown"]; a text that the host cannot read
    once the zone is appended gives ["Invalid Date"], which is another
    sentinel; and on a string the guarded block never throws, so the handler
    is never needed. *)
Lemma convertESTtoIST_sentinels (host : Host) :
  convertESTtoIST host (Some (JStr "")) = "Unknown" /\
  convertESTtoIST host (Some (JStr "Unknown")) = "Unknown" /\
  (forall s : string,
      s <> "" -> s <> "Unknown" ->
      Date.of_string host (cleaned s ++ " GMT-0500") = None ->
      convertESTtoIST host (Some (JStr s)) = "Invalid Date") /\
  "Invalid Date" <> "Unknown" /\
  (forall s : string, exists out : string,
      convert_try host (Some (JStr s)) = Normal out).
Proof.
  repeat split.
  - intros s Hne Hunk Hbad.
    rewrite convertESTtoIST_string by assumption.
    unfold convert_string. now rewrite Hbad.
  - discriminate.
  - intros s. now exists (convert_string host s).
Qed.

(** C8: a garbled text is not given the invalid sentinel. The words of
    [Case.garbled] are no date for the engine, yet the text that the code
    hands to the parser ends in the zone it appends, and the engine, which
    skips words until the first number and has read no time by then, takes
    the digits of the zone for a year: the result is the first day of the
    year 500, shifted and printed as any other date. *)
Theorem convertESTtoIST_dates_garbled_text :
  cleaned Case.garbled = Case.garbled /\
  Date.of_string host_utc (cleaned Case.garbled) = None /\
  Date.of_string host_utc (cleaned Case.garbled ++ " GMT-0500")
  = Some (Date.days_from_civil 500 1 1 * Date.msPerDay) /\
  convertESTtoIST host_utc (Some (JStr Case.garbled)) = "01/01/500, 10:30:00 AM IST" /\
  convertESTtoIST host_utc (Some (JStr Case.garbled)) <> "Invalid Date".
Proof.
  repeat split; try (vm_compute; reflexivity).
  vm_compute. discriminate.
Qed.

(** ** The sort: a stable descending order *)

Section SortFacts.
Context {A : Type} (key : A -> Z).

Lemma insert_perm (x : A) (l : list A) :
  Permutation (x :: l) (Sort.insert (desc key) x l).
Proof.
  induction l as [| y r IH]; simpl.
  - apply Permutation_refl.
  - destruct (0 <? key y - key x).
    + eapply perm_trans; [apply perm_swap |]. now apply perm_skip.
    + apply Permutation_refl.
Qed.

Lemma sort_perm (l : list A) : Permutation l (Sort.sort (desc key) l).
Proof.
  induction l as [| x r IH]; simpl.
  - apply perm_nil.
  - eapply perm_trans; [apply perm_skip, IH | apply insert_perm].
Qed.

Lemma insert_hd (x : A) (l : list A) (a : A) :
  ge_key key a x -> HdRel (ge_key key) a l ->
  HdRel (ge_key key) a (Sort.insert (desc key) x l).
Proof.
  intros Hax Hal. destruct l as [| y r]; simpl.
  - now constructor.
  - destruct (0 <? key y - key x); constructor.
    + now inversion Hal.
    + exact Hax.
Qed.

Lemma insert_sorted (x : A) (l : list A) :
  Sorted (ge_key key) l -> Sorted (ge_key key) (Sort.insert (desc key) x l).
Proof.
  induction l as [| y r IH]; intros Hs; simpl.
  - repeat constructor.
  - destruct (Z.ltb_spec 0 (key y - key x)) as [Hlt | Hge].
    + inversion Hs as [| ? ? Hr Hhd]; subst.
      constructor; [now apply IH |].
      apply insert_hd; [unfold ge_key; lia | exact Hhd].
    + constructor; [exact Hs |]. constructor. unfold ge_key. lia.
Qed.

Lemma sort_sorted (l : list A) : Sorted (ge_key key) (Sort.sort (desc key) l).
Proof.
  induction l as [| x r IH]; simpl.
  - constructor.
  - now apply insert_sorted.
Qed.





Lemma sort_nonempty (l : list A) : l <> [] -> Sort.sort (desc key) l <> [].
Proof.
  intros Hl Hs. apply Hl, Permutation_nil.
  rewrite <- Hs. apply Permutation_sym, sort_perm.
Qed.

(** A comparator that never throws and computes [desc key] on the elements
    at hand sorts as [desc key] does. *)
Lemma insertC_pure (cmp : A -> A -> Completion (option Z)) (x : A) (l : list A) :
  (forall y, In y l -> cmp x y = Normal (desc key x y)) ->
  Sort.insertC cmp x l = Normal (Sort.insert (desc key) x l).
Proof.
  induction l as [| y r IH]; intros H; simpl.
  - reflexivity.
  - rewrite (H y (or_introl eq_refl)). simpl.
    destruct (0 <? key y - key x); [| reflexivity].
    rewrite IH; [reflexivity |]. intros z Hz. apply H. now right.
Qed.

Lemma sortC_pure (cmp : A -> A -> Completion (option Z)) (l : list A) :
  (forall x y, In x l -> In y l -> cmp x y = Normal (desc key x y)) ->
  Sort.sortC cmp l = Normal (Sort.sort (desc key) l).
Proof.
  induction l as [| x r IH]; intros H; simpl.
  - reflexivity.
  - rewrite IH by (intros a b Ha Hb; apply H; now right). simpl.
    apply insertC_pure. intros y Hy. apply H; [now left | right].
    eapply Permutation_in; [apply Permutation_sym, sort_perm | exact Hy].
Qed.
End SortFacts.

(** ** The leaderboard records *)

Lemma get_nonnull (v : json) (k : string) :
  v <> JNull -> Val.get (Some v) k = Normal (Val.get_opt (Some v) k).
Proof.
  intros Hv. unfold Val.get_opt.
  destruct v; try reflexivity. now elim Hv.
Qed.

Lemma get_opt_some (v : jsval) (k : string) (x : json) :
  Val.get_opt v k = Some x -> Val.get v k = Normal (Some x).
Proof.
  unfold Val.get_opt. destruct (Val.get v k); [now intros -> | discriminate].
Qed.

Lemma by_votes_desc (a b : json) :
  wf_voter a -> wf_voter b -> by_votes a b = Normal (desc votes_key a b).
Proof.
  intros [Ha Hva] [Hb Hvb]. unfold by_votes, desc, votes_key.
  rewrite !get_nonnull by assumption. simpl.
  unfold votes_of in *.
  destruct (Conv.parseInt (Val.get_opt (Some a) "votes")); [| now elim Hva].
  destruct (Conv.parseInt (Val.get_opt (Some b) "votes")); [| now elim Hvb].
  reflexivity.
Qed.

Lemma by_timestamp_desc (a b : json) :
  wf_event a -> wf_event b -> by_timestamp a b = Normal (desc timestamp_key a b).
Proof.
  intros [Ha Hta] [Hb Htb]. unfold by_timestamp, desc, timestamp_key.
  rewrite !get_nonnull by assumption. simpl.
  unfold timestamp_of in *.
  destruct (Conv.ToNumber (Val.get_opt (Some a) "timestamp")); [| now elim Hta].
  destruct (Conv.ToNumber (Val.get_opt (Some b) "timestamp")); [| now elim Htb].
  reflexivity.
Qed.

Lemma filterC_matching (events : list json) (nick : jsval) :
  Forall wf_event events ->
  filterC (fun vote => n <- Val.get (Some vote) "nickname" ;;
                       Normal (Val.strict_eq n nick)) events
  = Normal (matching events nick).
Proof.
  induction 1 as [| e r [He _] _ IH]; cbn [filterC].
  - reflexivity.
  - rewrite get_nonnull by assumption. rewrite IH.
    unfold matching. cbn [cbind filter]. fold (nick_of e).
    now destruct (Val.strict_eq (nick_of e) nick).
Qed.

Lemma matching_wf (events : list json) (nick : jsval) (e : json) :
  Forall wf_event events -> In e (matching events nick) -> wf_event e.
Proof.
  intros H Hin. apply filter_In in Hin.
  rewrite Forall_forall in H. now apply H.
Qed.








(** ** The rendered body *)

Lemma entry_line (index : Z) (r : LeaderboardRecord) : entry index r = line (index + 1) r.
Proof.
  unfold entry, line.
  repeat (rewrite !append_assoc; simpl). reflexivity.
Qed.

Lemma forEach_voter_numbered (host : Host) (td : jsval) (voters : list json) :
  forall (index : Z) (acc : string) (rs : list LeaderboardRecord),
    mapC (record_of host td) voters = Normal rs ->
    forEach_voter host td voters index acc = Normal (acc ++ numbered (index + 1) rs).
Proof.
  induction voters as [| v rest IH]; intros index acc rs; cbn [mapC forEach_voter].
  - intros [= <-]. cbn. now rewrite append_nil_r.
  - destruct (record_of host td v) as [r | e]; cbn [cbind]; [| discriminate].
    destruct (mapC (record_of host td) rest) as [rs' | e]; cbn [cbind]; [| discriminate].
    intros [= <-].
    rewrite (IH (index + 1) (acc ++ entry index r) rs' eq_refl).
    cbn [numbered]. now rewrite entry_line, append_assoc.
Qed.

Lemma setTitle_valid (v : jsval) : valid_title v -> EmbedBuilder.setTitle v = Normal v.
Proof.
  intros (s & -> & Hlo & Hhi). unfold EmbedBuilder.setTitle, EmbedBuilder.within.
  apply Nat.leb_le in Hlo. apply Nat.leb_le in Hhi. now rewrite Hlo, Hhi.
Qed.



(** The string that the loop leaves in [description]. *)
Lemma description_built (host : Host) (td : jsval) (sorted : list json)
    (rs : list LeaderboardRecord) :
  mapC (record_of host td) sorted = Normal rs ->
  match sorted with
  | [] => Normal "No votes this month yet!"
  | _ :: _ => forEach_voter host td sorted 0 ""
  end = Normal (body rs).
Proof.
  intros Hshape. destruct sorted as [| v rest].
  - cbn in Hshape. now injection Hshape as <-.
  - rewrite (forEach_voter_numbered host td (v :: rest) 0 "" rs Hshape).
    destruct rs as [| r rs']; [| reflexivity].
    cbn [mapC] in Hshape.
    destruct (record_of host td v); cbn [cbind] in Hshape; [| discriminate].
    destruct (mapC (record_of host td) rest); discriminate.
Qed.

(** With the records at hand, what is left of [createVoteEmbed] is the two
    checks of the builder. *)
Lemma createVoteEmbed_checks (host : Host) (now : Z) (vd td : jsval)
    (rs : list LeaderboardRecord) :
  Val.truthy td = true ->
  shape host vd td = Normal rs ->
  createVoteEmbed host now vd td
  = (title <- EmbedBuilder.setTitle (title_of vd) ;;
     description <- EmbedBuilder.setDescription (body rs) ;;
     Normal (Some {| title := title;
                     color := 44678;
                     timestamp := now;
                     footer := "Vote Tracker Bot";
                     description := description |})).
Proof.
  intros Htd Hshape. unfold shape in Hshape.
  destruct (sortedVoters vd) as [sorted | err] eqn:Hsorted; [| discriminate].
  cbn [cbind] in Hshape.
  assert (Hv : exists fields l, vd = Some (JObj fields) /\ Val.assoc "voters" fields = Some (JArr l)).
  { unfold sortedVoters in Hsorted.
    destruct vd as [[| b | z | s | l | fields] |]; try discriminate.
    cbn in Hsorted.
    destruct (Val.assoc "voters" fields) as [[| b | z | s | l |] |] eqn:Ha; try discriminate.
    now exists fields, l. }
  destruct Hv as (fields & l & -> & Ha).
  unfold createVoteEmbed. rewrite Hsorted.
  cbn [Val.truthy negb Val.get cbind]. rewrite Ha, Htd. cbn [Val.truthy negb orb cbind].
  change (Val.or_else (Val.assoc "name" fields) (Some (JStr "Minecraft Server")))
    with (title_of (Some (JObj fields))).
  destruct (EmbedBuilder.setTitle _) as [t | e]; cbn [cbind]; [| reflexivity].
  now rewrite (description_built host td sorted rs Hshape).
Qed.



(** ** The reconciliation cycle *)

Ltac unfold_cycle :=
  unfold cycle, updateVoteMessage, updateVoteMessage_try,
    channel_fetch, fetchVoteCount, fetchVoteTimestamps, findOne,
    message_fetch, message_edit, channel_send, save, log,
    try_catch, bind, emit, lift, ret.

(** Nothing escapes a cycle: the method always completes. *)
Lemma cycle_completes (host : Host) (w : World) (row : option VoteData) :
  snd (cycle host w row) = Normal tt.
Proof.
  unfold cycle, updateVoteMessage, try_catch.
  destruct (updateVoteMessage_try host w _) as [s [[] | e]]; reflexivity.
Qed.

Lemma hash_nonempty (vd td : jsval) : generateDataHash vd td <> "".
Proof. apply Z_toString_nonempty. Qed.

Section Reconcile.
Variable host : Host.
Variable w : World.
Variables vd td : jsval.

(** The channel resolves, both payloads arrive and are truthy, and the
    store answers the query. *)
Hypothesis channel_ok : channels_fetch w = ChannelOk.
Hypothesis voters_ok : voters_get w = Resolved vd.
Hypothesis votes_ok : votes_get w = Resolved td.
Hypothesis vd_truthy : Val.truthy vd = true.
Hypothesis td_truthy : Val.truthy td = true.
Hypothesis store_ok : findOne_ok w = true.

Ltac enter :=
  unfold_cycle;
  rewrite channel_ok, voters_ok, votes_ok, store_ok, vd_truthy, td_truthy;
  cbn [negb orb trace db].

Lemma cycle_unchanged_live (row : VoteData) (id : string) :
  has_message row = Some id ->
  lastUpdateHash row = generateDataHash vd td ->
  messages_fetch w id = Found ->
  cycle host w (Some row)
  = ({| trace := [Log "No changes detected, message still exists"];
        db := Some row |}, Normal tt).
Proof.
  intros Hid Hhash Hprobe. enter.
  rewrite Hhash, String.eqb_refl, Hid, Hprobe. reflexivity.
Qed.

Lemma cycle_unchanged_missing (row : VoteData) (id newId : string) (embed : option Embed) :
  has_message row = Some id ->
  lastUpdateHash row = generateDataHash vd td ->
  messages_fetch w id <> Found ->
  createVoteEmbed host (clock w) vd td = Normal embed ->
  send w embed = Normal newId ->
  save_ok w (row_after w vd td row (Some newId)) = true ->
  cycle host w (Some row)
  = ({| trace := [Log "Message was deleted. Reposting...";
                  Sent embed newId;
                  Saved (row_after w vd td row (Some newId))];
        db := Some (row_after w vd td row (Some newId)) |}, Normal tt).
Proof.
  intros Hid Hhash Hprobe Hembed Hsend Hsave. enter.
  rewrite Hhash, String.eqb_refl, Hid.
  unfold row_after in Hsave.
  destruct (messages_fetch w id); [now elim Hprobe | |];
    cbn [trace db]; rewrite Hembed, Hsend; cbn [trace db app];
    rewrite Hsave; reflexivity.
Qed.

Lemma cycle_changed_live (row : VoteData) (id : string) (e : Embed) :
  has_message row = Some id ->
  lastUpdateHash row <> generateDataHash vd td ->
  messages_fetch w id = Found ->
  createVoteEmbed host (clock w) vd td = Normal (Some e) ->
  edit_ok w id e = true ->
  save_ok w (row_after w vd td row (lastMessageId row)) = true ->
  cycle host w (Some row)
  = ({| trace := [Edited id e;
                  Log "Updated existing message";
                  Saved (row_after w vd td row (lastMessageId row));
                  Log "Vote message updated successfully"];
        db := Some (row_after w vd td row (lastMessageId row)) |}, Normal tt).
Proof.
  intros Hid Hhash Hprobe Hembed Hedit Hsave. enter.
  apply String.eqb_neq in Hhash. rewrite Hhash, Hembed, Hid, Hprobe, Hedit.
  unfold row_after in Hsave.
  cbn [trace db app]. rewrite Hsave. reflexivity.
Qed.

Lemma cycle_changed_missing (row : VoteData) (id newId : string) (e : Embed) :
  has_message row = Some id ->
  lastUpdateHash row <> generateDataHash vd td ->
  messages_fetch w id <> Found ->
  createVoteEmbed host (clock w) vd td = Normal (Some e) ->
  send w (Some e) = Normal newId ->
  save_ok w (row_after w vd td row (Some newId)) = true ->
  cycle host w (Some row)
  = ({| trace := [Sent (Some e) newId;
                  Log "Previous message not found, sent new message";
                  Saved (row_after w vd td row (Some newId));
                  Log "Vote message updated successfully"];
        db := Some (row_after w vd td row (Some newId)) |}, Normal tt).
Proof.
  intros Hid Hhash Hprobe Hembed Hsend Hsave. enter.
  apply String.eqb_neq in Hhash. rewrite Hhash, Hembed, Hid.
  unfold row_after in Hsave.
  destruct (messages_fetch w id); [now elim Hprobe | |];
    cbn [trace db]; rewrite Hsend; cbn [trace db app];
    rewrite Hsave; reflexivity.
Qed.

Lemma cycle_first (e : Embed) (newId : string) :
  createVoteEmbed host (clock w) vd td = Normal (Some e) ->
  send w (Some e) = Normal newId ->
  save_ok w (row_after w vd td (new_VoteData (serverKey w) (clock w)) (Some newId)) = true ->
  cycle host w None
  = ({| trace := [Sent (Some e) newId;
                  Log "Sent first vote message";
                  Saved (row_after w vd td (new_VoteData (serverKey w) (clock w)) (Some newId));
                  Log "Vote message updated successfully"];
        db := Some (row_after w vd td (new_VoteData (serverKey w) (clock w)) (Some newId)) |},
     Normal tt).
Proof.
  intros Hembed Hsend Hsave. enter.
  cbn [new_VoteData lastUpdateHash].
  assert (Hne : String.eqb "" (generateDataHash vd td) = false).
  { apply String.eqb_neq. intros H. now apply (hash_nonempty vd td). }
  rewrite Hne, Hembed. cbn [has_message new_VoteData lastMessageId].
  rewrite Hsend. unfold row_after, new_VoteData in Hsave.
  cbn [trace db app serverId createdAt new_VoteData] in *.
  rewrite Hsave. reflexivity.
Qed.
End Reconcile.

Lemma ready_live (probe : Probe) : ready (Scenario.live probe) Sample.vd Sample.td.
Proof. repeat split. Qed.

Lemma embed_live (probe : Probe) :
  createVoteEmbed host_est (clock (Scenario.live probe)) Sample.vd Sample.td
  = Normal (Some Scenario.embed).
Proof. vm_compute. reflexivity. Qed.

(** C6, as stated, fails: a malformed body is no failure for the fetch
    step. The HTTP client resolves with the text it could not read as JSON,
    a truthy value; with standings that list no voter the embed is the
    placeholder, and the cycle publishes it and writes the row. *)
Lemma malformed_events_are_published :
  votes_get (Case.accepting (Resolved Case.vd_empty) (Resolved Case.td_malformed))
  = Resolved (Some (JStr "<html>Down for maintenance</html>")) /\
  sent_of (trace (fst (cycle host_utc
             (Case.accepting (Resolved Case.vd_empty) (Resolved Case.td_malformed)) None)))
  = [(Some {| title := Some (JStr "Srv");
              color := 44678;
              timestamp := 1753300000000;
              footer := "Vote Tracker Bot";
              description := "No votes this month yet!" |}, "m2")] /\
  db (fst (cycle host_utc
             (Case.accepting (Resolved Case.vd_empty) (Resolved Case.td_malformed)) None))
  = Some {| serverId := "key";
            lastUpdateHash := generateDataHash Case.vd_empty Case.td_malformed;
            lastMessageId := Some "m2";
            createdAt := 1753300000000;
            updatedAt := 1753300000000 |}.
Proof. repeat split; vm_compute; reflexivity. Qed.

(** C6, amended: when either request to the provider is rejected, or
    resolves with a falsy body, the cycle publishes nothing, edits nothing,
    writes nothing, leaves the stored row as it was, and completes without
    an exception. *)
Theorem fetch_failure_aborts (host : Host) (w : World) (row : option VoteData) :
  failed (voters_get w) \/ failed (votes_get w) ->
  sent_of (trace (fst (cycle host w row))) = [] /\
  edited_of (trace (fst (cycle host w row))) = [] /\
  saved_of (trace (fst (cycle host w row))) = [] /\
  db (fst (cycle host w row)) = row /\
  snd (cycle host w row) = Normal tt.
Proof.
  intros H. unfold_cycle.
  destruct (channels_fetch w); cbn; try (repeat split; reflexivity).
  destruct (voters_get w) as [| vd]; destruct (votes_get w) as [| td]; cbn in H |- *.
  - repeat split; reflexivity.
  - repeat split; reflexivity.
  - rewrite Bool.orb_true_r. cbn. repeat split; reflexivity.
  - destruct H as [H | H]; rewrite H; cbn;
      try rewrite Bool.orb_true_r; cbn; repeat split; reflexivity.
Qed.

Lemma fetch_failure_aborts_witness :
  db (fst (cycle host_est
             (Scenario.world Found Rejected (Resolved Sample.td))
             (Some (Scenario.row "0")))) = Some (Scenario.row "0") /\
  sent_of (trace (fst (cycle host_est
             (Scenario.world Found (Resolved Sample.vd) Rejected) None))) = [] /\
  sent_of (trace (fst (cycle host_est
             (Scenario.world Found (Resolved Sample.vd) (Resolved (Some (JStr "")))) None)))
  = [].
Proof.
  split; [| split].
  - apply (fetch_failure_aborts host_est (Scenario.world Found Rejected (Resolved Sample.td))
             (Some (Scenario.row "0"))).
    left. exact I.
  - apply (fetch_failure_aborts host_est (Scenario.world Found (Resolved Sample.vd) Rejected)
             None).
    right. exact I.
  - apply (fetch_failure_aborts host_est
             (Scenario.world Found (Resolved Sample.vd) (Resolved (Some (JStr "")))) None).
    right. reflexivity.
Defined.

(** C4: a row with a recorded message whose hash equals the fresh one. If
    the message is found, the cycle only logs and the row stays as it was.
    If the look-up reports the message missing, the cycle publishes a new
    message and writes the row with the new message id and the same hash. *)
Theorem unchanged_live_or_missing (host : Host) (w : World) (vd td : jsval)
    (row : VoteData) (id : string) :
  ready w vd td ->
  has_message row = Some id ->
  lastUpdateHash row = generateDataHash vd td ->
  (messages_fetch w id = Found ->
   cycle host w (Some row)
   = ({| trace := [Log "No changes detected, message still exists"];
         db := Some row |}, Normal tt)) /\
  (messages_fetch w id = NotFound ->
   forall (embed : option Embed) (newId : string),
     createVoteEmbed host (clock w) vd td = Normal embed ->
     send w embed = Normal newId ->
     save_ok w (row_after w vd td row (Some newId)) = true ->
     cycle host w (Some row)
     = ({| trace := [Log "Message was deleted. Reposting...";
                     Sent embed newId;
                     Saved (row_after w vd td row (Some newId))];
           db := Some (row_after w vd td row (Some newId)) |}, Normal tt) /\
     lastMessageId (row_after w vd td row (Some newId)) = Some newId /\
     lastUpdateHash (row_after w vd td row (Some newId)) = lastUpdateHash row).
Proof.
  intros (Hc & Hv & Ht & Hvd & Htd & Hs) Hid Hhash. split.
  - intros Hprobe.
    apply (cycle_unchanged_live host w vd td Hc Hv Ht Hvd Htd Hs row id); assumption.
  - intros Hprobe embed newId Hembed Hsend Hsave. repeat split.
    + apply (cycle_unchanged_missing host w vd td Hc Hv Ht Hvd Htd Hs row id);
        try assumption.
      rewrite Hprobe. discriminate.
    + cbn. now rewrite Hhash.
Qed.

Lemma unchanged_live_or_missing_witness :
  cycle host_est (Scenario.live Found) (Some (Scenario.row Scenario.current))
  = ({| trace := [Log "No changes detected, message still exists"];
        db := Some (Scenario.row Scenario.current) |}, Normal tt) /\
  db (fst (cycle host_est (Scenario.live NotFound) (Some (Scenario.row Scenario.current))))
  = Some (row_after (Scenario.live NotFound) Sample.vd Sample.td
            (Scenario.row Scenario.current) (Some "m2")).
Proof.
  split.
  - apply (unchanged_live_or_missing host_est (Scenario.live Found) Sample.vd Sample.td
             (Scenario.row Scenario.current) "m1");
      [apply ready_live | reflexivity | reflexivity | reflexivity].
  - rewrite (proj1 (proj2 (unchanged_live_or_missing host_est (Scenario.live NotFound)
                             Sample.vd Sample.td (Scenario.row Scenario.current) "m1"
                             (ready_live NotFound) eq_refl eq_refl)
                      eq_refl (Some Scenario.embed) "m2"
                      (embed_live NotFound) eq_refl eq_refl)).
    reflexivity.
Defined.

(** C5: a row with a recorded message whose hash differs from the fresh
    one, the message being found and the edit accepted: the message is edited
    in place, nothing is published, and the row is written with the same
    message id, the fresh hash and the time of the cycle. *)
Theorem changed_edits_in_place (host : Host) (w : World) (vd td : jsval)
    (row : VoteData) (id : string) (e : Embed) :
  ready w vd td ->
  has_message row = Some id ->
  lastUpdateHash row <> generateDataHash vd td ->
  messages_fetch w id = Found ->
  createVoteEmbed host (clock w) vd td = Normal (Some e) ->
  edit_ok w id e = true ->
  save_ok w (row_after w vd td row (lastMessageId row)) = true ->
  cycle host w (Some row)
  = ({| trace := [Edited id e;
                  Log "Updated existing message";
                  Saved (row_after w vd td row (lastMessageId row));
                  Log "Vote message updated successfully"];
        db := Some (row_after w vd td row (lastMessageId row)) |}, Normal tt) /\
  sent_of (trace (fst (cycle host w (Some row)))) = [] /\
  lastMessageId (row_after w vd td row (lastMessageId row)) = lastMessageId row /\
  lastUpdateHash (row_after w vd td row (lastMessageId row)) = generateDataHash vd td /\
  updatedAt (row_after w vd td row (lastMessageId row)) = clock w.
Proof.
  intros (Hc & Hv & Ht & Hvd & Htd & Hs) Hid Hhash Hprobe Hembed Hedit Hsave.
  rewrite (cycle_changed_live host w vd td Hc Hv Ht Hvd Htd Hs row id e
             Hid Hhash Hprobe Hembed Hedit Hsave).
  repeat split.
Qed.

Lemma changed_edits_in_place_witness :
  cycle host_est (Scenario.live Found) (Some (Scenario.row "814497316"))
  = ({| trace := [Edited "m1" Scenario.embed;
                  Log "Updated existing message";
                  Saved (row_after (Scenario.live Found) Sample.vd Sample.td
                           (Scenario.row "814497316") (Some "m1"));
                  Log "Vote message updated successfully"];
        db := Some (row_after (Scenario.live Found) Sample.vd Sample.td
                      (Scenario.row "814497316") (Some "m1")) |}, Normal tt).
Proof.
  apply (changed_edits_in_place host_est (Scenario.live Found) Sample.vd Sample.td
           (Scenario.row "814497316") "m1" Scenario.embed);
    [apply ready_live | reflexivity | | reflexivity
     | apply embed_live | reflexivity | reflexivity].
  apply String.eqb_neq. vm_compute. reflexivity.
Defined.

(** C2, as stated, fails: with the hash unchanged and the look-up of the
    recorded message failing on a transient error, the cycle publishes a new
    message and writes the row with the new message id. *)
Lemma transient_probe_reposts :
  messages_fetch (Scenario.live TransientError) "m1" = TransientError /\
  lastUpdateHash (Scenario.row Scenario.current) = generateDataHash Sample.vd Sample.td /\
  map snd (sent_of (trace (fst (cycle host_est (Scenario.live TransientError)
                                  (Some (Scenario.row Scenario.current)))))) = ["m2"] /\
  option_map lastMessageId
    (db (fst (cycle host_est (Scenario.live TransientError)
                (Some (Scenario.row Scenario.current))))) = Some (Some "m2") /\
  db (fst (cycle host_est (Scenario.live TransientError)
             (Some (Scenario.row Scenario.current))))
  <> Some (Scenario.row Scenario.current).
Proof.
  repeat split; try (vm_compute; reflexivity).
  vm_compute. discriminate.
Qed.

(** C2, amended: the look-up of the recorded message either finds it or
    fails, and every failure, a transient error like a definite not-found,
    drives the repost: with the hash unchanged a new message is published and
    the row is written with its id; with the hash changed a new message is
    published and the row is written with its id and the fresh hash. *)
Theorem probe_failure_reposts (host : Host) (w : World) (vd td : jsval)
    (row : VoteData) (id newId : string) :
  ready w vd td ->
  has_message row = Some id ->
  messages_fetch w id <> Found ->
  save_ok w (row_after w vd td row (Some newId)) = true ->
  (lastUpdateHash row = generateDataHash vd td ->
   forall embed : option Embed,
     createVoteEmbed host (clock w) vd td = Normal embed ->
     send w embed = Normal newId ->
     cycle host w (Some row)
     = ({| trace := [Log "Message was deleted. Reposting...";
                     Sent embed newId;
                     Saved (row_after w vd td row (Some newId))];
           db := Some (row_after w vd td row (Some newId)) |}, Normal tt)) /\
  (lastUpdateHash row <> generateDataHash vd td ->
   forall e : Embed,
     createVoteEmbed host (clock w) vd td = Normal (Some e) ->
     send w (Some e) = Normal newId ->
     cycle host w (Some row)
     = ({| trace := [Sent (Some e) newId;
                     Log "Previous message not found, sent new message";
                     Saved (row_after w vd td row (Some newId));
                     Log "Vote message updated successfully"];
           db := Some (row_after w vd td row (Some newId)) |}, Normal tt)).
Proof.
  intros (Hc & Hv & Ht & Hvd & Htd & Hs) Hid Hprobe Hsave. split.
  - intros Hhash embed Hembed Hsend.
    apply (cycle_unchanged_missing host w vd td Hc Hv Ht Hvd Htd Hs row id); assumption.
  - intros Hhash e Hembed Hsend.
    apply (cycle_changed_missing host w vd td Hc Hv Ht Hvd Htd Hs row id); assumption.
Qed.

Lemma probe_failure_reposts_witness :
  cycle host_est (Scenario.live TransientError) (Some (Scenario.row Scenario.current))
  = ({| trace := [Log "Message was deleted. Reposting...";
                  Sent (Some Scenario.embed) "m2";
                  Saved (row_after (Scenario.live TransientError) Sample.vd Sample.td
                           (Scenario.row Scenario.current) (Some "m2"))];
        db := Some (row_after (Scenario.live TransientError) Sample.vd Sample.td
                      (Scenario.row Scenario.current) (Some "m2")) |}, Normal tt).
Proof.
  apply (proj1 (probe_failure_reposts host_est (Scenario.live TransientError)
                  Sample.vd Sample.td (Scenario.row Scenario.current) "m1" "m2"
                  (ready_live TransientError) eq_refl
                  ltac:(discriminate) eq_refl));
    [reflexivity | apply embed_live | reflexivity].
Defined.

Lemma first_hash_differs (key : string) (now : Z) (vd td : jsval) :
  String.eqb (lastUpdateHash (new_VoteData key now)) (generateDataHash vd td) = false.
Proof.
  apply String.eqb_neq. cbn. intros H. now apply (hash_nonempty vd td).
Qed.

Lemma first_cycle_skips_unchanged (host : Host) (w : World) (line : string) :
  In line unchanged_lines -> ~ In (Log line) (trace (fst (cycle host w None))).
Proof.
  intros Hline. unfold_cycle.
  destruct (channels_fetch w); cbn [fst trace db negb app];
    [ | | destruct (voters_get w) as [| vd]; destruct (votes_get w) as [| td];
          cbn [fst trace db negb orb app Val.truthy];
          try rewrite Bool.orb_true_r;
          try destruct (Val.truthy vd); try destruct (Val.truthy td);
          cbn [fst trace db negb orb app];
          try (destruct (findOne_ok w); cbn [fst trace db app];
               try rewrite first_hash_differs;
               try (destruct (createVoteEmbed host (clock w) vd td) as [[e |] | err];
                    cbn [fst trace db app has_message new_VoteData lastMessageId];
                    try (destruct (send w (Some e)); cbn [fst trace db app];
                         try match goal with
                             | |- context [save_ok w ?r] => destruct (save_ok w r)
                             end; cbn [fst trace db app])))];
    cbn [In]; unfold unchanged_lines in Hline; cbn [In] in Hline;
    intuition (subst; discriminate).
Qed.

(** C10, as stated, fails: a first cycle need not publish. The payloads
    below arrive and are truthy, the store and the transport accept
    everything, and no row is stored; the standings carry no list of voters,
    so no embed is built and the cycle logs and returns. *)
Lemma first_cycle_without_voters_is_silent :
  ready (Case.accepting (Resolved Case.vd_no_voters) (Resolved Sample.td))
        Case.vd_no_voters Sample.td /\
  generateDataHash Case.vd_no_voters Sample.td <> "" /\
  cycle host_utc (Case.accepting (Resolved Case.vd_no_voters) (Resolved Sample.td)) None
  = ({| trace := [Log "Failed to create embed"]; db := None |}, Normal tt) /\
  sent_of (trace (fst (cycle host_utc
             (Case.accepting (Resolved Case.vd_no_voters) (Resolved Sample.td)) None)))
  = [].
Proof.
  split; [repeat split; reflexivity |].
  split; [apply String.eqb_neq; vm_compute; reflexivity |].
  split; vm_compute; reflexivity.
Qed.

(** C10, amended: the hash is the decimal numeral of a signed 32-bit
    integer, so it is never the empty string that a new row carries; hence a
    cycle that finds no row never enters the branch of an unchanged hash,
    and, when an embed is built from the payloads and the transport and the
    store accept it, publishes a new message and writes the first row. *)
Theorem first_cycle_publishes (host : Host) (w : World) :
  (forall vd td : jsval,
      exists h : Z,
        int32 h /\
        generateDataHash vd td = JS.Z_toString h /\
        read_decimal (generateDataHash vd td) = Some h) /\
  (forall vd td : jsval,
      generateDataHash vd td <> "" /\
      generateDataHash vd td <> lastUpdateHash (new_VoteData (serverKey w) (clock w))) /\
  (forall line : string,
      In line unchanged_lines -> ~ In (Log line) (trace (fst (cycle host w None)))) /\
  (forall (vd td : jsval) (e : Embed) (newId : string),
      ready w vd td ->
      createVoteEmbed host (clock w) vd td = Normal (Some e) ->
      send w (Some e) = Normal newId ->
      save_ok w (row_after w vd td (new_VoteData (serverKey w) (clock w)) (Some newId)) = true ->
      cycle host w None
      = ({| trace := [Sent (Some e) newId;
                      Log "Sent first vote message";
                      Saved (row_after w vd td (new_VoteData (serverKey w) (clock w))
                               (Some newId));
                      Log "Vote message updated successfully"];
            db := Some (row_after w vd td (new_VoteData (serverKey w) (clock w))
                          (Some newId)) |}, Normal tt)).
Proof.
  split; [| split; [| split]].
  - intros vd td. exists (hash_loop (JS.charCodes (dataString vd td))).
    split; [apply hash_loop_range |]. split; [reflexivity |].
    apply read_decimal_toString.
  - intros vd td. split; [apply hash_nonempty |].
    cbn. apply hash_nonempty.
  - intros line. apply first_cycle_skips_unchanged.
  - intros vd td e newId (Hc & Hv & Ht & Hvd & Htd & Hs) Hembed Hsend Hsave.
    now apply (cycle_first host w vd td).
Qed.

Lemma first_cycle_publishes_witness :
  cycle host_est (Scenario.live Found) None
  = ({| trace := [Sent (Some Scenario.embed) "m2";
                  Log "Sent first vote message";
                  Saved (row_after (Scenario.live Found) Sample.vd Sample.td
                           (new_VoteData "key" 1753300000000) (Some "m2"));
                  Log "Vote message updated successfully"];
        db := Some (row_after (Scenario.live Found) Sample.vd Sample.td
                      (new_VoteData "key" 1753300000000) (Some "m2")) |}, Normal tt).
Proof.
  apply (proj2 (proj2 (proj2 (first_cycle_publishes host_est (Scenario.live Found))))
           Sample.vd Sample.td Scenario.embed "m2");
    [apply ready_live | apply embed_live | reflexivity | reflexivity].
Defined.

(* ================================================================== *)
(** * Further properties                                               *)

(** ** Every outcome of a cycle *)

Ltac reduce_cycle :=
  cbn [fst snd trace db negb orb app has_message new_VoteData lastMessageId
       lastUpdateHash serverId createdAt updatedAt stored_or_new].

Ltac split_oracle :=
  match goal with
  | |- context [channels_fetch ?w] => destruct (channels_fetch w) eqn:?
  | |- context [match voters_get ?w with _ => _ end] => destruct (voters_get w) eqn:?
  | |- context [match votes_get ?w with _ => _ end] => destruct (votes_get w) eqn:?
  | |- context [Val.truthy ?v] => destruct (Val.truthy v) eqn:?
  | |- context [findOne_ok ?w] => destruct (findOne_ok w) eqn:?
  | |- context [String.eqb ?a (generateDataHash ?x ?y)] =>
      destruct (String.eqb a (generateDataHash x y)) eqn:?
  | |- context [match lastMessageId ?r with _ => _ end] => destruct (lastMessageId r) eqn:?
  | |- context [String.eqb ?a ""] => destruct (String.eqb a "") eqn:?
  | |- context [messages_fetch ?w ?i] => destruct (messages_fetch w i) eqn:?
  | |- context [createVoteEmbed ?h ?n ?x ?y] =>
      destruct (createVoteEmbed h n x y) as [[?|]|?] eqn:?
  | |- context [edit_ok ?w ?i ?e] => destruct (edit_ok w i e) eqn:?
  | |- context [send ?w ?e] => destruct (send w e) eqn:?
  | |- context [save_ok ?w ?r] => destruct (save_ok w r) eqn:?
  end.

Ltac explore :=
  unfold_cycle; unfold has_message; reduce_cycle; repeat (split_oracle; reduce_cycle).

Ltac recorded_message :=
  unfold has_message; cbn [stored_or_new];
  match goal with
  | H : lastMessageId _ = Some _, H' : String.eqb _ "" = false |- _ => rewrite H, H'
  end; reflexivity.

Lemma cycle_outcome (host : Host) (w : World) (row : option VoteData) :
  Outcome w row (fst (cycle host w row)).
Proof.
  destruct row as [row |]; explore;
    first
      [ now (apply Quiet)
      | now (eapply Unsaved_send)
      | (eapply Published; [eassumption | eassumption | reflexivity | reflexivity])
      | (eapply Unsaved_edit; [recorded_message | reflexivity | reflexivity])
      | (eapply Updated;
         [eassumption | eassumption | recorded_message | cbn [stored_or_new]; eassumption
          | reflexivity | reflexivity]) ].
Qed.

Lemma sent_of_effects (tr : list Event) : sent_of (effects tr) = sent_of tr.
Proof.
  unfold effects, sent_of. induction tr as [| e tr IH]; [reflexivity |].
  destruct e; simpl; now rewrite ?IH.
Qed.

Lemma edited_of_effects (tr : list Event) : edited_of (effects tr) = edited_of tr.
Proof.
  unfold effects, edited_of. induction tr as [| e tr IH]; [reflexivity |].
  destruct e; simpl; now rewrite ?IH.
Qed.

Lemma saved_of_effects (tr : list Event) : saved_of (effects tr) = saved_of tr.
Proof.
  unfold effects, saved_of. induction tr as [| e tr IH]; [reflexivity |].
  destruct e; simpl; now rewrite ?IH.
Qed.

Ltac by_outcome host w row :=
  rewrite <- (sent_of_effects (trace (fst (cycle host w row)))),
          <- (edited_of_effects (trace (fst (cycle host w row)))),
          <- (saved_of_effects (trace (fst (cycle host w row))));
  destruct (cycle_outcome host w row)
    as [He Hdb | embed id He Hdb | id e Hid He Hdb
        | vd td embed id Hv Ht He Hdb | vd td e id Hv Ht Hid Hlast He Hdb];
  rewrite He, ?Hdb; cbn.

(** X1: whatever the collaborators answer, one cycle sends at most one
    message, edits at most one, writes at most one row, and never both sends
    and edits. *)
Theorem cycle_effects_bounded (host : Host) (w : World) (row : option VoteData) :
  (List.length (sent_of (trace (fst (cycle host w row)))) <= 1)%nat /\
  (List.length (edited_of (trace (fst (cycle host w row)))) <= 1)%nat /\
  (List.length (saved_of (trace (fst (cycle host w row)))) <= 1)%nat /\
  (sent_of (trace (fst (cycle host w row))) = [] \/
   edited_of (trace (fst (cycle host w row))) = []).
Proof.
  by_outcome host w row; repeat split; auto.
Qed.

(** X2: the stored row after a cycle is the row written, or the row before
    when nothing was written; and a row is written only after a message was
    sent or edited in the same cycle. *)
Theorem cycle_row_follows_save (host : Host) (w : World) (row : option VoteData) :
  db (fst (cycle host w row))
  = match saved_of (trace (fst (cycle host w row))) with
    | [] => row
    | r :: _ => Some r
    end /\
  (saved_of (trace (fst (cycle host w row))) <> [] ->
   sent_of (trace (fst (cycle host w row))) <> [] \/
   edited_of (trace (fst (cycle host w row))) <> []).
Proof.
  by_outcome host w row; split; try reflexivity; try assumption; try tauto;
    intros _; (left + right); discriminate.
Qed.

(** X3: a row that a cycle writes names the message just sent or edited,
    carries the hash of the payloads received and the time of the cycle, and
    keeps the server id and the creation time of the row it replaces. *)
Theorem saved_row_records (host : Host) (w : World) (row : option VoteData) (r : VoteData) :
  In r (saved_of (trace (fst (cycle host w row)))) ->
  (exists id,
      lastMessageId r = Some id /\
      (In id (map snd (sent_of (trace (fst (cycle host w row))))) \/
       In id (map fst (edited_of (trace (fst (cycle host w row))))))) /\
  (exists vd td,
      voters_get w = Resolved vd /\ votes_get w = Resolved td /\
      lastUpdateHash r = generateDataHash vd td) /\
  updatedAt r = clock w /\
  serverId r = serverId (stored_or_new w row) /\
  createdAt r = createdAt (stored_or_new w row).
Proof.
  by_outcome host w row; try tauto; intros [<- | []]; cbn.
  - split; [exists id; split; [reflexivity | left; now left] |].
    split; [now exists vd, td |]. repeat split.
  - split; [exists id; split; [reflexivity | right; now left] |].
    split; [now exists vd, td |]. repeat split.
Qed.

Lemma saved_row_records_witness :
  exists id,
    lastMessageId (row_after (Case.sample Found true (Normal "m2") true) Sample.vd Sample.td
                     (new_VoteData "key" 1753300000000) (Some "m2")) = Some id /\
    id = "m2".
Proof.
  destruct (saved_row_records host_est (Case.sample Found true (Normal "m2") true) None
              (row_after (Case.sample Found true (Normal "m2") true) Sample.vd Sample.td
                 (new_VoteData "key" 1753300000000) (Some "m2")))
    as ((id & Hid & _) & _).
  - vm_compute. left. reflexivity.
  - exists id. split; [exact Hid |]. cbn in Hid. now injection Hid as <-.
Defined.

Ltac enter_ready H :=
  destruct H as (Hc & Hv & Ht & Hvd & Htd & Hs);
  unfold_cycle; rewrite Hc, Hv, Ht, Hs, Hvd, Htd; cbn [negb orb trace db].

(** X4: a row whose hash equals the fresh one but which records no message
    is left alone: the cycle logs and publishes nothing, so such a row never
    gets a message while the payloads stay the same. *)
Theorem unchanged_without_message (host : Host) (w : World) (vd td : jsval) (row : VoteData) :
  ready w vd td ->
  has_message row = None ->
  lastUpdateHash row = generateDataHash vd td ->
  cycle host w (Some row)
  = ({| trace := [Log "No changes detected, but no message found"];
        db := Some row |}, Normal tt).
Proof.
  intros H Hid Hhash. enter_ready H.
  rewrite Hhash, String.eqb_refl, Hid. reflexivity.
Qed.

Lemma unchanged_without_message_witness :
  cycle host_est (Scenario.live NotFound) (Some (Case.row_without_message Scenario.current))
  = ({| trace := [Log "No changes detected, but no message found"];
        db := Some (Case.row_without_message Scenario.current) |}, Normal tt).
Proof.
  apply (unchanged_without_message host_est (Scenario.live NotFound) Sample.vd Sample.td
           (Case.row_without_message Scenario.current));
    [apply ready_live | reflexivity | reflexivity].
Defined.

(** X5: with the hash changed and the recorded message found, an edit that
    the transport rejects is followed by a new message, and the row is
    written with the new message id. *)
Theorem rejected_edit_sends_anew (host : Host) (w : World) (vd td : jsval)
    (row : VoteData) (id newId : string) (e : Embed) :
  ready w vd td ->
  has_message row = Some id ->
  lastUpdateHash row <> generateDataHash vd td ->
  messages_fetch w id = Found ->
  createVoteEmbed host (clock w) vd td = Normal (Some e) ->
  edit_ok w id e = false ->
  send w (Some e) = Normal newId ->
  save_ok w (row_after w vd td row (Some newId)) = true ->
  cycle host w (Some row)
  = ({| trace := [Sent (Some e) newId;
                  Log "Previous message not found, sent new message";
                  Saved (row_after w vd td row (Some newId));
                  Log "Vote message updated successfully"];
        db := Some (row_after w vd td row (Some newId)) |}, Normal tt).
Proof.
  intros H Hid Hhash Hprobe Hembed Hedit Hsend Hsave. enter_ready H.
  apply String.eqb_neq in Hhash.
  rewrite Hhash, Hembed, Hid, Hprobe, Hedit. cbn [trace db]. rewrite Hsend.
  unfold row_after in Hsave. cbn [trace db app]. rewrite Hsave. reflexivity.
Qed.

Lemma rejected_edit_sends_anew_witness :
  db (fst (cycle host_est (Case.sample Found false (Normal "m2") true)
             (Some (Scenario.row "814497316"))))
  = Some (row_after (Case.sample Found false (Normal "m2") true) Sample.vd Sample.td
            (Scenario.row "814497316") (Some "m2")).
Proof.
  rewrite (rejected_edit_sends_anew host_est (Case.sample Found false (Normal "m2") true)
             Sample.vd Sample.td (Scenario.row "814497316") "m1" "m2" Scenario.embed).
  - reflexivity.
  - repeat split.
  - reflexivity.
  - apply String.eqb_neq. vm_compute. reflexivity.
  - reflexivity.
  - vm_compute. reflexivity.
  - reflexivity.
  - reflexivity.
  - reflexivity.
Defined.

(** X6: when building the embed throws, the cycle sends nothing, edits
    nothing, writes nothing and leaves the row as it was, whatever the row and
    the other collaborators. *)
Theorem render_failure_is_quiet (host : Host) (w : World) (vd td : jsval)
    (row : option VoteData) (err : string) :
  voters_get w = Resolved vd ->
  votes_get w = Resolved td ->
  createVoteEmbed host (clock w) vd td = Throw err ->
  quiet (fst (cycle host w row)) row.
Proof.
  intros Hv Ht Hembed. unfold quiet.
  destruct row as [row |]; unfold_cycle; unfold has_message; rewrite Hv, Ht;
    reduce_cycle;
    repeat (first [rewrite Hembed | split_oracle]; reduce_cycle);
    cbn; repeat split.
Qed.

Lemma render_failure_is_quiet_witness :
  quiet (fst (cycle host_est
                (Case.world ChannelOk (Resolved Case.vd_null_voter) (Resolved Sample.td)
                   true NotFound true (Normal "m2") true)
                (Some (Scenario.row "0"))))
        (Some (Scenario.row "0")).
Proof.
  apply (render_failure_is_quiet host_est _ Case.vd_null_voter Sample.td
           (Some (Scenario.row "0")) "TypeError");
    [reflexivity | reflexivity | vm_compute; reflexivity].
Defined.

(** X7: when no embed is built and the hash differs from the stored one
    (or no row is stored), the cycle does nothing to the transport nor to the
    store. *)
Theorem missing_embed_is_quiet (host : Host) (w : World) (vd td : jsval)
    (row : option VoteData) :
  voters_get w = Resolved vd ->
  votes_get w = Resolved td ->
  createVoteEmbed host (clock w) vd td = Normal None ->
  lastUpdateHash (stored_or_new w row) <> generateDataHash vd td ->
  quiet (fst (cycle host w row)) row.
Proof.
  intros Hv Ht Hembed Hhash. apply String.eqb_neq in Hhash. unfold quiet.
  destruct row as [row |]; cbn [stored_or_new new_VoteData lastUpdateHash] in Hhash;
    unfold_cycle; unfold has_message; rewrite Hv, Ht;
    reduce_cycle;
    repeat (first [rewrite Hembed | rewrite Hhash | split_oracle]; reduce_cycle);
    cbn; repeat split.
Qed.

Lemma missing_embed_is_quiet_witness :
  quiet (fst (cycle host_est
                (Case.world ChannelOk (Resolved Case.vd_no_voters) (Resolved Sample.td)
                   true Found true (Normal "m2") true)
                None))
        None.
Proof.
  apply (missing_embed_is_quiet host_est _ Case.vd_no_voters Sample.td None);
    [reflexivity | reflexivity | vm_compute; reflexivity |].
  apply String.eqb_neq. vm_compute. reflexivity.
Defined.

(** X8: when the channel does not resolve, or the query of the store
    fails, the cycle does nothing to the transport nor to the store. *)
Theorem unreachable_collaborator_is_quiet (host : Host) (w : World) (row : option VoteData) :
  channels_fetch w <> ChannelOk \/ findOne_ok w = false ->
  quiet (fst (cycle host w row)) row.
Proof.
  intros H. unfold quiet.
  destruct H as [H | H].
  - unfold_cycle. destruct (channels_fetch w); [| | now elim H]; cbn; repeat split.
  - unfold_cycle. rewrite H. reduce_cycle.
    repeat (split_oracle; reduce_cycle); cbn; repeat split.
Qed.

Lemma unreachable_collaborator_is_quiet_witness :
  quiet (fst (cycle host_est
                (Case.world ChannelNull (Resolved Sample.vd) (Resolved Sample.td)
                   true Found true (Normal "m2") true)
                None))
        None /\
  quiet (fst (cycle host_est
                (Case.world ChannelOk (Resolved Sample.vd) (Resolved Sample.td)
                   false Found true (Normal "m2") true)
                (Some (Scenario.row "0"))))
        (Some (Scenario.row "0")).
Proof.
  split.
  - apply (unreachable_collaborator_is_quiet host_est). left. discriminate.
  - apply (unreachable_collaborator_is_quiet host_est). right. reflexivity.
Defined.

(** X9: when the store rejects every write, the stored row is unchanged
    after the cycle, also when a message has been sent or edited. *)
Theorem rejected_save_keeps_row (host : Host) (w : World) (row : option VoteData) :
  (forall r, save_ok w r = false) ->
  saved_of (trace (fst (cycle host w row))) = [] /\
  db (fst (cycle host w row)) = row.
Proof.
  intros Hsave.
  destruct row as [row |]; unfold_cycle; unfold has_message; reduce_cycle;
    repeat (first [rewrite Hsave | split_oracle]; reduce_cycle);
    cbn; split; reflexivity.
Qed.

Lemma rejected_save_keeps_row_witness :
  map snd (sent_of (trace (fst (cycle host_est (Case.sample Found true (Normal "m2") false)
                                  None)))) = ["m2"] /\
  db (fst (cycle host_est (Case.sample Found true (Normal "m2") false) None)) = None.
Proof.
  split.
  - vm_compute. reflexivity.
  - apply (rejected_save_keeps_row host_est (Case.sample Found true (Normal "m2") false) None).
    reflexivity.
Defined.

Lemma first_hash_differs_alt (vd td : jsval) :
  String.eqb "" (generateDataHash vd td) = false.
Proof. apply String.eqb_neq. intros H. now apply (hash_nonempty vd td). Qed.

Lemma sent_of_app (a b : list Event) : sent_of (a ++ b) = (sent_of a ++ sent_of b)%list.
Proof. unfold sent_of. apply flat_map_app. Qed.

Lemma edited_of_app (a b : list Event) : edited_of (a ++ b) = (edited_of a ++ edited_of b)%list.
Proof. unfold edited_of. apply flat_map_app. Qed.

Lemma has_message_row_after (w : World) (vd td : jsval) (row : VoteData) (id : string) :
  id <> "" -> has_message (row_after w vd td row (Some id)) = Some id.
Proof.
  intros Hid. unfold has_message. cbn.
  apply String.eqb_neq in Hid. now rewrite Hid.
Qed.

Lemma steady_ticks (host : Host) (vd td : jsval) (r : VoteData) (id : string)
    (ws : list World) :
  has_message r = Some id ->
  lastUpdateHash r = generateDataHash vd td ->
  Forall (fun w => ready w vd td /\ messages_fetch w id = Found) ws ->
  forall s : St,
    db s = Some r ->
    sent_of (trace (fold_left (run_tick host) ws s)) = sent_of (trace s) /\
    edited_of (trace (fold_left (run_tick host) ws s)) = edited_of (trace s) /\
    db (fold_left (run_tick host) ws s) = Some r.
Proof.
  intros Hid Hhash. induction 1 as [| w ws [Hready Hprobe] _ IH]; intros s Hdb.
  - now repeat split.
  - cbn [fold_left].
    destruct Hready as (Hc & Hv & Ht & Hvd & Htd & Hs).
    assert (E : run_tick host s w
                = {| trace := trace s ++ [Log "No changes detected, message still exists"];
                     db := Some r |}).
    { unfold run_tick. rewrite Hdb.
      now rewrite (cycle_unchanged_live host w vd td Hc Hv Ht Hvd Htd Hs r id Hid Hhash Hprobe). }
    rewrite E.
    destruct (IH {| trace := trace s ++ [Log "No changes detected, message still exists"];
                    db := Some r |} eq_refl) as (H1 & H2 & H3).
    rewrite H1, H2, H3. cbn [trace].
    rewrite sent_of_app, edited_of_app. cbn. now rewrite !app_nil_r.
Qed.

(** X10: after a first cycle that publishes message [id], any number of
    further ticks with the same payloads and the message found send and edit
    nothing: the run has published exactly once and the row is the one of the
    first cycle. *)
Theorem monitoring_settles (host : Host) (w0 : World) (ws : list World) (vd td : jsval)
    (e : Embed) (id : string) :
  ready w0 vd td ->
  createVoteEmbed host (clock w0) vd td = Normal (Some e) ->
  send w0 (Some e) = Normal id ->
  id <> "" ->
  save_ok w0 (row_after w0 vd td (new_VoteData (serverKey w0) (clock w0)) (Some id)) = true ->
  Forall (fun w => ready w vd td /\ messages_fetch w id = Found) ws ->
  sent_of (trace (startVoteMonitoring host (w0 :: ws) None)) = [(Some e, id)] /\
  edited_of (trace (startVoteMonitoring host (w0 :: ws) None)) = [] /\
  db (startVoteMonitoring host (w0 :: ws) None)
  = Some (row_after w0 vd td (new_VoteData (serverKey w0) (clock w0)) (Some id)).
Proof.
  intros (Hc & Hv & Ht & Hvd & Htd & Hs) Hembed Hsend Hid Hsave Hws.
  unfold startVoteMonitoring. cbn [fold_left].
  set (r := row_after w0 vd td (new_VoteData (serverKey w0) (clock w0)) (Some id)) in *.
  assert (E : run_tick host {| trace := [Log "Starting vote monitoring..."]; db := None |} w0
              = {| trace := [Log "Starting vote monitoring..."; Sent (Some e) id;
                             Log "Sent first vote message"; Saved r;
                             Log "Vote message updated successfully"];
                   db := Some r |}).
  { unfold run_tick. cbn [db trace].
    now rewrite (cycle_first host w0 vd td Hc Hv Ht Hvd Htd Hs e id Hembed Hsend Hsave). }
  rewrite E.
  destruct (steady_ticks host vd td r id ws
              (has_message_row_after _ _ _ _ _ Hid) eq_refl Hws
              {| trace := [Log "Starting vote monitoring..."; Sent (Some e) id;
                           Log "Sent first vote message"; Saved r;
                           Log "Vote message updated successfully"];
                 db := Some r |} eq_refl) as (H1 & H2 & H3).
  rewrite H1, H2, H3. now repeat split.
Qed.

Lemma monitoring_settles_witness :
  sent_of (trace (startVoteMonitoring host_est
                    [Scenario.live Found; Scenario.live Found; Scenario.live Found] None))
  = [(Some Scenario.embed, "m2")].
Proof.
  apply (monitoring_settles host_est (Scenario.live Found)
           [Scenario.live Found; Scenario.live Found] Sample.vd Sample.td Scenario.embed "m2").
  - apply ready_live.
  - apply embed_live.
  - reflexivity.
  - discriminate.
  - reflexivity.
  - repeat constructor.
Defined.

(** X11: a first cycle whose message is sent but whose row the store
    rejects leaves no row, so the next cycle publishes again: two messages
    for one state of the leaderboard. *)
Theorem unsaved_publish_repeats (host : Host) (w1 w2 : World) (vd td : jsval)
    (e1 e2 : Embed) (id1 id2 : string) :
  ready w1 vd td ->
  createVoteEmbed host (clock w1) vd td = Normal (Some e1) ->
  send w1 (Some e1) = Normal id1 ->
  (forall r, save_ok w1 r = false) ->
  ready w2 vd td ->
  createVoteEmbed host (clock w2) vd td = Normal (Some e2) ->
  send w2 (Some e2) = Normal id2 ->
  sent_of (trace (startVoteMonitoring host [w1; w2] None)) = [(Some e1, id1); (Some e2, id2)].
Proof.
  intros H1 Hembed1 Hsend1 Hsave1 H2 Hembed2 Hsend2.
  unfold startVoteMonitoring, run_tick. cbn [fold_left db trace].
  assert (E1 : cycle host w1 None
               = ({| trace := [Sent (Some e1) id1; Log "Sent first vote message";
                               Log "Error updating vote message:"];
                     db := None |}, Normal tt)).
  { enter_ready H1. cbn [new_VoteData lastUpdateHash].
    rewrite first_hash_differs_alt. rewrite Hembed1.
    cbn [has_message new_VoteData lastMessageId]. rewrite Hsend1.
    cbn [trace db app]. rewrite Hsave1. reflexivity. }
  rewrite E1. cbn [fst db trace].
  assert (E2 : sent_of (trace (fst (cycle host w2 None))) = [(Some e2, id2)]).
  { enter_ready H2. cbn [new_VoteData lastUpdateHash].
    rewrite first_hash_differs_alt. rewrite Hembed2.
    cbn [has_message new_VoteData lastMessageId]. rewrite Hsend2.
    cbn [trace db app]. destruct (save_ok w2 _); reflexivity. }
  rewrite !sent_of_app, E2. reflexivity.
Qed.

Lemma unsaved_publish_repeats_witness :
  sent_of (trace (startVoteMonitoring host_est
                    [Case.sample Found true (Normal "m1") false;
                     Case.sample Found true (Normal "m2") true] None))
  = [(Some Scenario.embed, "m1"); (Some Scenario.embed, "m2")].
Proof.
  apply (unsaved_publish_repeats host_est
           (Case.sample Found true (Normal "m1") false)
           (Case.sample Found true (Normal "m2") true)
           Sample.vd Sample.td Scenario.embed Scenario.embed "m1" "m2").
  - repeat split.
  - vm_compute. reflexivity.
  - reflexivity.
  - reflexivity.
  - repeat split.
  - vm_compute. reflexivity.
  - reflexivity.
Defined.

Lemma healthy_ticks (host : Host) (id : string) (ws : list World) :
  Forall (healthy host id) ws ->
  forall (s : St) (r : VoteData),
    db s = Some r ->
    lastMessageId r = Some id ->
    id <> "" ->
    sent_of (trace (fold_left (run_tick host) ws s)) = sent_of (trace s) /\
    exists r',
      db (fold_left (run_tick host) ws s) = Some r' /\
      lastMessageId r' = Some id /\
      serverId r' = serverId r /\
      createdAt r' = createdAt r.
Proof.
  induction 1 as [| w ws (vd & td & e & Hready & Hprobe & Hembed & Hedit & Hsave) _ IH];
    intros s r Hdb Hlast Hne.
  - split; [reflexivity |]. now exists r.
  - cbn [fold_left].
    assert (Hid : has_message r = Some id).
    { unfold has_message. rewrite Hlast. apply String.eqb_neq in Hne. now rewrite Hne. }
    pose proof Hready as (Hc & Hv & Ht & Hvd & Htd & Hs).
    destruct (String.eqb_spec (lastUpdateHash r) (generateDataHash vd td)) as [Hh | Hh].
    + assert (E : run_tick host s w
                  = {| trace := trace s ++ [Log "No changes detected, message still exists"];
                       db := Some r |}).
      { unfold run_tick. rewrite Hdb.
        now rewrite (cycle_unchanged_live host w vd td Hc Hv Ht Hvd Htd Hs r id Hid Hh Hprobe). }
      rewrite E.
      destruct (IH {| trace := trace s ++ [Log "No changes detected, message still exists"];
                      db := Some r |} r eq_refl Hlast Hne) as (H1 & r' & H2).
      split; [| now exists r'].
      rewrite H1. cbn [trace]. rewrite sent_of_app. cbn. now rewrite app_nil_r.
    + set (r1 := row_after w vd td r (lastMessageId r)).
      assert (E : run_tick host s w
                  = {| trace := trace s ++ [Edited id e; Log "Updated existing message";
                                            Saved r1; Log "Vote message updated successfully"];
                       db := Some r1 |}).
      { unfold run_tick. rewrite Hdb.
        now rewrite (cycle_changed_live host w vd td Hc Hv Ht Hvd Htd Hs r id e
                       Hid Hh Hprobe Hembed Hedit (Hsave _)). }
      rewrite E.
      destruct (IH {| trace := trace s ++ [Edited id e; Log "Updated existing message";
                                           Saved r1; Log "Vote message updated successfully"];
                      db := Some r1 |} r1 eq_refl Hlast Hne) as (H1 & r' & H2 & H3 & H4 & H5).
      split.
      * rewrite H1. cbn [trace]. rewrite sent_of_app. cbn. now rewrite app_nil_r.
      * exists r'. now repeat split.
Qed.

(** X12: over any number of ticks on which the recorded message is found
    and the edits and writes are accepted, no new message is sent and the row
    keeps its message id, server id and creation time, however the payloads
    change from tick to tick. *)
Theorem one_message_across_edits (host : Host) (ticks : list World) (row : VoteData)
    (id : string) :
  lastMessageId row = Some id ->
  id <> "" ->
  Forall (healthy host id) ticks ->
  sent_of (trace (startVoteMonitoring host ticks (Some row))) = [] /\
  exists row',
    db (startVoteMonitoring host ticks (Some row)) = Some row' /\
    lastMessageId row' = Some id /\
    serverId row' = serverId row /\
    createdAt row' = createdAt row.
Proof.
  intros Hlast Hne Hticks. unfold startVoteMonitoring.
  apply (healthy_ticks host id ticks Hticks
           {| trace := [Log "Starting vote monitoring..."]; db := Some row |} row eq_refl Hlast Hne).
Qed.

Lemma one_message_across_edits_witness :
  sent_of (trace (startVoteMonitoring host_est
                    [Scenario.live Found;
                     Case.world ChannelOk (Resolved Sample.vd_reordered) (Resolved Sample.td)
                       true Found true (Normal "m2") true]
                    (Some (Scenario.row "0")))) = [].
Proof.
  apply (one_message_across_edits host_est
           [Scenario.live Found;
            Case.world ChannelOk (Resolved Sample.vd_reordered) (Resolved Sample.td)
              true Found true (Normal "m2") true]
           (Scenario.row "0") "m1").
  - reflexivity.
  - discriminate.
  - constructor; [| constructor; [| constructor]].
    + exists Sample.vd, Sample.td, Scenario.embed.
      repeat split; vm_compute; reflexivity.
    + exists Sample.vd_reordered, Sample.td, Scenario.embed.
      repeat split; vm_compute; reflexivity.
Defined.

(** ** The hash as a polynomial, and its defaults *)

Lemma ToInt32_shift (z k : Z) : JS.ToInt32 (z + k * 4294967296) = JS.ToInt32 z.
Proof. unfold JS.ToInt32. now rewrite Z_mod_plus_full. Qed.

Lemma ToInt32_offset (z : Z) : exists k, JS.ToInt32 z = z + k * 4294967296.
Proof.
  unfold JS.ToInt32. rewrite Z.mod_eq by lia.
  destruct (2147483648 <=? z - 4294967296 * (z / 4294967296)).
  - exists (- (z / 4294967296) - 1). lia.
  - exists (- (z / 4294967296)). lia.
Qed.

Lemma hash_step_31 (h c : Z) : hash_step (JS.ToInt32 h) c = JS.ToInt32 (31 * h + c).
Proof.
  unfold hash_step, JS.band, JS.shl.
  rewrite Z.land_diag.
  change (5 mod 32) with 5. rewrite Z.shiftl_mul_pow2 by lia.
  change (2 ^ 5) with 32.
  destruct (ToInt32_offset h) as [k1 Hk1].
  destruct (ToInt32_offset (JS.ToInt32 h)) as [k2 Hk2].
  destruct (ToInt32_offset (JS.ToInt32 (JS.ToInt32 h) * 32)) as [k3 Hk3].
  set (x := JS.ToInt32 (JS.ToInt32 (JS.ToInt32 h) * 32) - JS.ToInt32 h + c).
  destruct (ToInt32_offset x) as [k4 Hk4].
  rewrite Hk4. rewrite ToInt32_shift.
  unfold x. rewrite Hk3, Hk2, Hk1.
  replace ((h + k1 * 4294967296 + k2 * 4294967296) * 32 + k3 * 4294967296
           - (h + k1 * 4294967296) + c)
    with (31 * h + c + (31 * k1 + 32 * k2 + k3) * 4294967296) by lia.
  apply ToInt32_shift.
Qed.

Lemma hash_loop_from (codes : list Z) (h : Z) :
  fold_left hash_step codes (JS.ToInt32 h)
  = JS.ToInt32 (fold_left (fun h c => 31 * h + c) codes h).
Proof.
  revert h. induction codes as [| c codes IH]; intros h; cbn [fold_left].
  - reflexivity.
  - rewrite hash_step_31. apply IH.
Qed.

Lemma hash_loop_horner (codes : list Z) :
  hash_loop codes = JS.ToInt32 (horner31 codes).
Proof. unfold hash_loop, horner31. apply (hash_loop_from codes 0). Qed.

(** X13: the token is the decimal numeral of the polynomial in 31 over the
    code units of the serialised payloads, wrapped to a signed 32-bit
    integer: [(hash << 5) - hash] multiplies by 31. *)
Theorem generateDataHash_horner (vd td : jsval) :
  generateDataHash vd td
  = JS.Z_toString (JS.ToInt32 (horner31 (JS.charCodes (dataString vd td)))).
Proof. unfold generateDataHash. now rewrite hash_loop_horner. Qed.

(** X14: a payload with no truthy [voters] (or [votes]) hashes as one whose
    list is empty, so the token cannot tell a payload without a list from an
    empty leaderboard. *)
Theorem generateDataHash_defaults (vd td : jsval) :
  (Val.truthy (Val.get_opt vd "voters") = false ->
   generateDataHash vd td = generateDataHash (Some (JObj [("voters", JArr [])])) td) /\
  (Val.truthy (Val.get_opt td "votes") = false ->
   generateDataHash vd td = generateDataHash vd (Some (JObj [("votes", JArr [])]))).
Proof.
  split; intros H; unfold generateDataHash, dataString; do 4 f_equal.
  - f_equal. unfold raw_voters, Val.or_else. now rewrite H.
  - do 2 f_equal. unfold raw_timestamps, Val.or_else. now rewrite H.
Qed.

Lemma generateDataHash_defaults_witness :
  generateDataHash Case.vd_no_voters Sample.td
  = generateDataHash (Some (JObj [("voters", JArr [])])) Sample.td /\
  generateDataHash Sample.vd (Some JNull)
  = generateDataHash Sample.vd (Some (JObj [("votes", JArr [])])).
Proof.
  split.
  - apply (proj1 (generateDataHash_defaults Case.vd_no_voters Sample.td)). reflexivity.
  - apply (proj2 (generateDataHash_defaults Sample.vd (Some JNull))). reflexivity.
Defined.

(** X15: on a value that is no string the conversion never throws: a falsy
    value ([undefined], [null], [false], 0) gives ["Unknown"], any other
    value gives ["Invalid Date"] through the handler. *)
Theorem convertESTtoIST_not_a_string (host : Host) (v : jsval) :
  (forall s, v <> Some (JStr s)) ->
  convertESTtoIST host v = if Val.truthy v then "Invalid Date" else "Unknown".
Proof.
  intros H. destruct v as [[| b | z | s | l | f] |]; try reflexivity.
  - now destruct b.
  - unfold convertESTtoIST. cbn. now destruct (z =? 0).
  - now elim (H s).
Qed.

Lemma convertESTtoIST_not_a_string_witness :
  convertESTtoIST host_utc (Some (JNum 1753255620)) = "Invalid Date" /\
  convertESTtoIST host_utc None = "Unknown".
Proof.
  split.
  - apply (convertESTtoIST_not_a_string host_utc (Some (JNum 1753255620))). discriminate.
  - apply (convertESTtoIST_not_a_string host_utc None). discriminate.
Defined.

(** ** The ordinal suffix *)

Lemma digit_not_ordinal (c : ascii) (r : string) :
  JS.is_digit c = true -> starts_with_ordinal (String c r) = false.
Proof.
  intros Hc. unfold starts_with_ordinal. cbn [prefix].
  destruct (ascii_dec "s" c) as [<- | _]; [discriminate Hc |].
  destruct (ascii_dec "n" c) as [<- | _]; [discriminate Hc |].
  destruct (ascii_dec "r" c) as [<- | _]; [discriminate Hc |].
  destruct (ascii_dec "t" c) as [<- | _]; [discriminate Hc |].
  reflexivity.
Qed.

Lemma ordinal_suffix_found (suffix rest : string) :
  is_ordinal_suffix suffix ->
  starts_with_ordinal (suffix ++ rest) = true /\ JS.drop 2 (suffix ++ rest) = rest.
Proof.
  intros [-> | [-> | [-> | ->]]]; split; try reflexivity;
    unfold starts_with_ordinal; simpl; now destruct rest.
Qed.

Lemma replace_ordinal_digits (ds suffix rest : string) :
  ds <> "" -> all_chars JS.is_digit ds = true -> is_ordinal_suffix suffix ->
  replace_ordinal (ds ++ suffix ++ rest) = ds ++ rest.
Proof.
  intros Hne Hds Hsuf.
  induction ds as [| d ds IH]; [now elim Hne |].
  cbn [all_chars] in Hds. apply andb_true_iff in Hds. destruct Hds as [Hd Hds].
  cbn [append replace_ordinal]. rewrite Hd. cbn [andb].
  destruct ds as [| d' ds'].
  - cbn [append].
    destruct (ordinal_suffix_found suffix rest Hsuf) as [-> ->]. reflexivity.
  - cbn [all_chars] in Hds. apply andb_true_iff in Hds. destruct Hds as [Hd' Hds'].
    cbn [append]. rewrite (digit_not_ordinal d' _ Hd').
    f_equal. apply IH; [discriminate |].
    cbn [all_chars]. now rewrite Hd', Hds'.
Qed.

(** X16: a text without a digit is left as it is (the letters [st] of
    August are not a suffix), and the suffix that follows the first run of
    digits is dropped with nothing else changed. *)
Theorem replace_ordinal_first (pre ds suffix rest : string) :
  all_chars (fun c => negb (JS.is_digit c)) pre = true ->
  (replace_ordinal pre = pre) /\
  (ds <> "" -> all_chars JS.is_digit ds = true -> is_ordinal_suffix suffix ->
   replace_ordinal (pre ++ ds ++ suffix ++ rest) = pre ++ ds ++ rest).
Proof.
  intros Hpre. induction pre as [| c pre IH].
  - split; [reflexivity |]. cbn [append]. intros Hne Hds Hsuf.
    now apply replace_ordinal_digits.
  - cbn [all_chars] in Hpre. apply andb_true_iff in Hpre. destruct Hpre as [Hc Hpre].
    apply negb_true_iff in Hc. destruct (IH Hpre) as [IH1 IH2].
    split.
    + cbn [replace_ordinal]. rewrite Hc. cbn [andb]. now rewrite IH1.
    + intros Hne Hds Hsuf. cbn [append replace_ordinal]. rewrite Hc. cbn [andb].
      now rewrite IH2.
Qed.

Lemma replace_ordinal_first_witness :
  replace_ordinal "August" = "August" /\
  replace_ordinal "August 1st, 2025 09:05 PM" = "August 1, 2025 09:05 PM".
Proof.
  split.
  - apply (proj1 (replace_ordinal_first "August" "" "" "" eq_refl)).
  - apply (proj2 (replace_ordinal_first "August " "1" "st" ", 2025 09:05 PM" eq_refl)).
    + discriminate.
    + reflexivity.
    + now left.
Defined.

(** X17: a timestamp that parses within the range of dates but leaves it
    once 10.5 hours are added is not reported as invalid: every field prints
    as [NaN]. *)
Theorem convertESTtoIST_beyond_range (host : Host) (s : string) (t : Z) :
  s <> "" -> s <> "Unknown" ->
  Date_parse host (cleaned s ++ " GMT-0500") = Some t ->
  Z.abs t <= 8640000000000000 ->
  8640000000000000 < t + offset_ms ->
  convertESTtoIST host (Some (JStr s)) = "NaN/NaN/NaN, NaN:NaN:NaN AM IST".
Proof.
  intros Hne Hunk Hparse Hin Hout.
  assert (Hclip : Date.TimeClip t = Some t).
  { unfold Date.TimeClip. destruct (Z.leb_spec (Z.abs t) 8640000000000000); [reflexivity | lia]. }
  assert (Hclip' : Date.TimeClip (t + offset_ms) = None).
  { unfold Date.TimeClip.
    destruct (Z.leb_spec (Z.abs (t + offset_ms)) 8640000000000000); [lia | reflexivity]. }
  rewrite convertESTtoIST_string by assumption.
  unfold convert_string, Date.of_string. rewrite Hparse.
  cbn [Date.of_number]. rewrite Hclip.
  cbn [Date.getTime isNaN option_map Date.of_number]. rewrite Hclip'.
  reflexivity.
Qed.

Lemma convertESTtoIST_beyond_range_witness :
  convertESTtoIST host_utc (Some (JStr Case.last_evening))
  = "NaN/NaN/NaN, NaN:NaN:NaN AM IST".
Proof.
  apply (convertESTtoIST_beyond_range host_utc Case.last_evening 8640000000000000).
  - discriminate.
  - discriminate.
  - vm_compute. reflexivity.
  - vm_compute. discriminate.
  - reflexivity.
Defined.

(** ** The reporting period *)

Lemma civil_month_day_range (n : Z) :
  1 <= snd (fst (Date.civil_from_days n)) <= 12 /\
  1 <= snd (Date.civil_from_days n) <= 31.
Proof.
  unfold Date.civil_from_days. cbv zeta. cbn [fst snd].
  set (z := n + 719468).
  set (doe := z - z / 146097 * 146097).
  assert (Hdoe : 0 <= doe <= 146096).
  { unfold doe. pose proof (Z.mod_pos_bound z 146097 eq_refl) as H.
    rewrite Z.mod_eq in H by lia. lia. }
  clearbody doe. clear z.
  set (yoe := (doe - doe / 1460 + doe / 36524 - doe / 146096) / 365).
  set (doy := doe - (365 * yoe + yoe / 4 - yoe / 100)).
  assert (Hdoy : 0 <= doy <= 365).
  { unfold doy, yoe. Z.to_euclidean_division_equations; lia. }
  clearbody doy.
  set (mp := (5 * doy + 2) / 153).
  assert (Hmp : 0 <= mp <= 11).
  { unfold mp. Z.to_euclidean_division_equations; lia. }
  assert (Hd : 1 <= doy - (153 * mp + 2) / 5 + 1 <= 31).
  { unfold mp. Z.to_euclidean_division_equations; lia. }
  destruct (Z.ltb_spec mp 10); lia.
Qed.

Lemma two_digit_month (m : Z) :
  1 <= m <= 12 ->
  String.length (JS.padStart2 (JS.Z_toString m)) = 2%nat /\
  read_decimal (JS.padStart2 (JS.Z_toString m)) = Some m.
Proof.
  intros H.
  assert (E : m = 1 \/ m = 2 \/ m = 3 \/ m = 4 \/ m = 5 \/ m = 6 \/ m = 7 \/ m = 8 \/
              m = 9 \/ m = 10 \/ m = 11 \/ m = 12) by lia.
  repeat (destruct E as [-> | E]; [split; reflexivity |]).
  subst. split; reflexivity.
Qed.

(** X18: the current period is the local year followed by exactly two
    characters, and these read as the number of the local month: the month
    of the host's getter, which counts from 0, plus one. *)
Theorem getCurrentPeriod_layout (host : Host) (now : Z) :
  exists mm : string,
    getCurrentPeriod host now
    = JS.Z_toString (Date.YearFromTime (Date.LocalTime host now)) ++ mm /\
    String.length mm = 2%nat /\
    Date.getMonth host (Some now) = Some (Date.MonthFromTime (Date.LocalTime host now)) /\
    read_decimal mm = Some (Date.MonthFromTime (Date.LocalTime host now) + 1) /\
    0 <= Date.MonthFromTime (Date.LocalTime host now) <= 11.
Proof.
  unfold getCurrentPeriod, Date.getFullYear, Date.getMonth. cbn [option_map JS.num_toString].
  set (m := Date.MonthFromTime (Date.LocalTime host now) + 1).
  assert (Hm : 1 <= m <= 12).
  { unfold m, Date.MonthFromTime.
    pose proof (civil_month_day_range (Date.LocalTime host now / Date.msPerDay)). lia. }
  destruct (two_digit_month m Hm) as [Hlen Hread].
  exists (JS.padStart2 (JS.Z_toString m)).
  split; [reflexivity |]. split; [exact Hlen |]. split; [reflexivity |].
  split; [exact Hread | unfold m in Hm; lia].
Qed.

(** ** createVoteEmbed: no embed, and exceptions *)

Lemma get_truthy (v : jsval) (k : string) :
  Val.truthy v = true -> Val.get v k = Normal (Val.get_opt v k).
Proof.
  intros H. unfold Val.get_opt.
  destruct v as [[| b | z | s | l | f] |]; try reflexivity; discriminate H.
Qed.

(** X19: [createVoteEmbed] returns [null] exactly when the standings are
    falsy, carry no truthy [voters], or the events are falsy. *)
Theorem createVoteEmbed_null (host : Host) (now : Z) (vd td : jsval) :
  createVoteEmbed host now vd td = Normal None <->
  Val.truthy vd = false \/
  Val.truthy (Val.get_opt vd "voters") = false \/
  Val.truthy td = false.
Proof.
  unfold createVoteEmbed.
  destruct (Val.truthy vd) eqn:Hvd; cbn [negb].
  - rewrite (get_truthy vd "voters" Hvd). cbn [cbind].
    destruct (Val.truthy (Val.get_opt vd "voters")) eqn:Hvoters;
      destruct (Val.truthy td) eqn:Htd; cbn [negb orb];
      try (split; [intros _; auto | reflexivity]).
    split; [| intros [H | [H | H]]; discriminate H].
    destruct (sortedVoters vd) as [sorted | e]; cbn [cbind]; [| discriminate].
    rewrite (get_truthy vd "name" Hvd). cbn [cbind].
    destruct (EmbedBuilder.setTitle _) as [t | e]; cbn [cbind]; [| discriminate].
    destruct sorted as [| v rest]; cbn [cbind].
    + destruct (EmbedBuilder.setDescription _); cbn [cbind]; discriminate.
    + destruct (forEach_voter host td (v :: rest) 0 "") as [d | e]; cbn [cbind];
        [| discriminate].
      destruct (EmbedBuilder.setDescription d); cbn [cbind]; discriminate.
  - split; [intros _; now left | reflexivity].
Qed.

Lemma createVoteEmbed_null_witness :
  createVoteEmbed host_est 0 Case.vd_no_voters Sample.td = Normal None.
Proof.
  apply (proj2 (createVoteEmbed_null host_est 0 Case.vd_no_voters Sample.td)).
  right. left. reflexivity.
Defined.

Lemma by_votes_null_left (b : json) : by_votes JNull b = Throw "TypeError".
Proof. unfold by_votes. destruct b; reflexivity. Qed.

Lemma by_votes_null_right (a : json) : by_votes a JNull = Throw "TypeError".
Proof. reflexivity. Qed.

Lemma by_votes_throws (a b : json) (e : string) : by_votes a b = Throw e -> e = "TypeError".
Proof.
  unfold by_votes. destruct b; cbn; destruct a; cbn; intros [= <-]; reflexivity.
Qed.

Lemma insertC_throws (x : json) (l : list json) (e : string) :
  Sort.insertC by_votes x l = Throw e -> e = "TypeError".
Proof.
  induction l as [| y r IH]; cbn [Sort.insertC]; [discriminate |].
  destruct (by_votes x y) as [v | e'] eqn:Hc; cbn [cbind].
  - destruct (Sort.positive v); [| discriminate].
    destruct (Sort.insertC by_votes x r); cbn [cbind]; [discriminate |].
    intros [= <-]. now apply IH.
  - intros [= <-]. now apply (by_votes_throws x y).
Qed.

Lemma sortC_throws (l : list json) (e : string) :
  Sort.sortC by_votes l = Throw e -> e = "TypeError".
Proof.
  induction l as [| x r IH]; cbn [Sort.sortC]; [discriminate |].
  destruct (Sort.sortC by_votes r) as [r' |]; cbn [cbind].
  - apply insertC_throws.
  - intros [= <-]. now apply IH.
Qed.

Lemma insertC_length (x : json) (l l' : list json) :
  Sort.insertC by_votes x l = Normal l' -> List.length l' = S (List.length l).
Proof.
  revert l'. induction l as [| y r IH]; intros l'; cbn [Sort.insertC].
  - now intros [= <-].
  - destruct (by_votes x y) as [v |]; cbn [cbind]; [| discriminate].
    destruct (Sort.positive v); [| now intros [= <-]].
    destruct (Sort.insertC by_votes x r) as [r' |]; cbn [cbind]; [| discriminate].
    intros [= <-]. cbn. now rewrite (IH r' eq_refl).
Qed.

Lemma sortC_length (l l' : list json) :
  Sort.sortC by_votes l = Normal l' -> List.length l' = List.length l.
Proof.
  revert l'. induction l as [| x r IH]; intros l'; cbn [Sort.sortC].
  - now intros [= <-].
  - destruct (Sort.sortC by_votes r) as [r' |]; cbn [cbind]; [| discriminate].
    intros H. rewrite (insertC_length x r' l' H). cbn. now rewrite (IH r' eq_refl).
Qed.

Lemma sortC_null (l : list json) :
  In JNull l -> (2 <= List.length l)%nat -> Sort.sortC by_votes l = Throw "TypeError".
Proof.
  induction l as [| x r IH]; intros Hin Hlen; [now elim Hin |].
  cbn [Sort.sortC].
  destruct r as [| y r']; [cbn in Hlen; lia |].
  destruct (Sort.sortC by_votes (y :: r')) as [s | e] eqn:Hs; cbn [cbind].
  - pose proof (sortC_length _ _ Hs) as Hl.
    destruct s as [| y' s']; [discriminate Hl |].
    cbn [Sort.insertC].
    destruct Hin as [-> | Hin].
    + now rewrite by_votes_null_left.
    + destruct r' as [| z r''].
      * destruct Hin as [-> | []].
        cbn in Hs. injection Hs as <- <-. now rewrite by_votes_null_right.
      * assert (Hlen' : (2 <= List.length (y :: z :: r''))%nat) by (cbn; lia).
        discriminate (IH Hin Hlen').
  - f_equal. now apply (sortC_throws (y :: r')).
Qed.

(** X20: on truthy payloads [createVoteEmbed] throws a [TypeError] when
    [voters] is truthy but no array; when the array holds a [null] and
    either has a second element, so that the sort compares it, or the title
    is valid, so that the loop is reached; and when the title is valid,
    there are voters and the events carry no [votes] array. *)
Theorem createVoteEmbed_type_errors (host : Host) (now : Z) (vd td : jsval) :
  Val.truthy vd = true ->
  Val.truthy td = true ->
  (Val.truthy (Val.get_opt vd "voters") = true ->
   (forall l, Val.get_opt vd "voters" <> Some (JArr l)) ->
   createVoteEmbed host now vd td = Throw "TypeError") /\
  (forall voters,
      Val.get_opt vd "voters" = Some (JArr voters) ->
      In JNull voters ->
      (2 <= List.length voters)%nat \/ valid_title (title_of vd) ->
      createVoteEmbed host now vd td = Throw "TypeError") /\
  (forall voters,
      Val.get_opt vd "voters" = Some (JArr voters) ->
      voters <> [] ->
      Forall wf_voter voters ->
      valid_title (title_of vd) ->
      (forall l, Val.get_opt td "votes" <> Some (JArr l)) ->
      createVoteEmbed host now vd td = Throw "TypeError").
Proof.
  intros Hvd Htd. unfold createVoteEmbed, sortedVoters.
  rewrite Hvd, Htd, !(get_truthy vd _ Hvd). cbn [negb cbind orb].
  change (Val.or_else (Val.get_opt vd "name") (Some (JStr "Minecraft Server")))
    with (title_of vd).
  split; [| split].
  - intros Hvoters Harr. rewrite Hvoters. cbn [negb orb cbind].
    destruct (Val.get_opt vd "voters") as [[| b | z | s | l | f] |]; try reflexivity.
    now elim (Harr l).
  - intros voters Hvoters Hnull Hreach.
    rewrite Hvoters. cbn [Val.truthy negb orb cbind as_array].
    destruct voters as [| v [| v' rest]].
    + now elim Hnull.
    + destruct Hnull as [-> | []].
      destruct Hreach as [Hlen | Htitle]; [cbn in Hlen; lia |].
      cbn [Sort.sortC Sort.insertC cbind].
      rewrite (setTitle_valid _ Htitle). reflexivity.
    + rewrite (sortC_null (v :: v' :: rest) Hnull) by (cbn; lia). reflexivity.
  - intros voters Hvoters Hne Hwf Htitle Harr.
    rewrite Hvoters. cbn [Val.truthy negb orb cbind as_array].
    rewrite (sortC_pure votes_key)
      by (intros a b Ha Hb; rewrite Forall_forall in Hwf; apply by_votes_desc; now apply Hwf).
    cbn [cbind]. rewrite (setTitle_valid _ Htitle). cbn [cbind].
    destruct (Sort.sort (desc votes_key) voters) as [| v rest] eqn:Hsort.
    + now elim (sort_nonempty votes_key voters Hne).
    + assert (Hv : wf_voter v).
      { rewrite Forall_forall in Hwf. apply Hwf.
        eapply Permutation_in; [apply Permutation_sym, (sort_perm votes_key) |].
        rewrite Hsort. now left. }
      destruct Hv as [Hv _].
      cbn [forEach_voter]. unfold record_of, getLatestTimestampForUser.
      rewrite (get_nonnull v "nickname" Hv). cbn [cbind].
      rewrite (get_truthy td "votes" Htd). cbn [cbind].
      destruct (Val.get_opt td "votes") as [[| b | z | s | l | f] |]; try reflexivity.
      now elim (Harr l).
Qed.

Lemma createVoteEmbed_type_errors_witness :
  createVoteEmbed host_est 0 (Some (JObj [("voters", JStr "none")])) Sample.td
  = Throw "TypeError" /\
  createVoteEmbed host_est 0 Case.vd_null_voter Sample.td = Throw "TypeError" /\
  createVoteEmbed host_est 0 (Sample.standings "Srv" [JNull]) Sample.td
  = Throw "TypeError" /\
  createVoteEmbed host_est 0 Sample.vd (Some (JObj [("error", JStr "no votes")]))
  = Throw "TypeError".
Proof.
  split; [| split; [| split]].
  - apply (proj1 (createVoteEmbed_type_errors host_est 0
                    (Some (JObj [("voters", JStr "none")])) Sample.td eq_refl eq_refl)).
    + reflexivity.
    + discriminate.
  - apply (proj1 (proj2 (createVoteEmbed_type_errors host_est 0
                           Case.vd_null_voter Sample.td eq_refl eq_refl))
             [Sample.voter "A" "3"; JNull]).
    + reflexivity.
    + right. now left.
    + left. cbn. lia.
  - apply (proj1 (proj2 (createVoteEmbed_type_errors host_est 0
                           (Sample.standings "Srv" [JNull]) Sample.td eq_refl eq_refl))
             [JNull]).
    + reflexivity.
    + now left.
    + right. exists "Srv". split; [reflexivity | cbn; lia].
  - apply (proj2 (proj2 (createVoteEmbed_type_errors host_est 0 Sample.vd
                           (Some (JObj [("error", JStr "no votes")])) eq_refl eq_refl))
             [Sample.voter "A" "3"; Sample.voter "B" "5"]).
    + reflexivity.
    + discriminate.
    + repeat constructor; discriminate.
    + exists "Srv". split; [reflexivity | cbn; lia].
    + discriminate.
Defined.

Lemma title_of_not_null (vd : jsval) : title_of vd <> Some JNull.
Proof.
  unfold title_of, Val.or_else.
  destruct (Val.truthy (Val.get_opt vd "name")) eqn:H; [| discriminate].
  intros E. rewrite E in H. discriminate H.
Qed.

Lemma setTitle_invalid (v : jsval) :
  v <> Some JNull -> ~ valid_title v -> EmbedBuilder.setTitle v = Throw "ValidationError".
Proof.
  intros Hnull Hbad.
  destruct v as [[| b | z | s | l | f] |]; try reflexivity; [now elim Hnull |].
  unfold EmbedBuilder.setTitle, EmbedBuilder.within.
  destruct (1 <=? String.length s)%nat eqn:Hlo; [| reflexivity].
  destruct (String.length s <=? 256)%nat eqn:Hhi; [| reflexivity].
  elim Hbad. exists s. apply Nat.leb_le in Hlo, Hhi. now repeat split.
Qed.

(** X22: the two checks of the builder. With the records at hand,
    [createVoteEmbed] throws the error of the builder when the name of the
    server is truthy and no string of at most 256 code units, and, the title
    being valid, when the body is longer than 4096 code units. *)
Theorem createVoteEmbed_validation_errors (host : Host) (now : Z) (vd td : jsval)
    (rs : list LeaderboardRecord) :
  Val.truthy td = true ->
  shape host vd td = Normal rs ->
  (~ valid_title (title_of vd) ->
   createVoteEmbed host now vd td = Throw "ValidationError") /\
  (valid_title (title_of vd) ->
   (4096 < String.length (body rs))%nat ->
   createVoteEmbed host now vd td = Throw "ValidationError").
Proof.
  intros Htd Hshape.
  rewrite (createVoteEmbed_checks host now vd td rs Htd Hshape).
  split.
  - intros Hbad. now rewrite (setTitle_invalid _ (title_of_not_null vd) Hbad).
  - intros Htitle Hlong. rewrite (setTitle_valid _ Htitle). cbn [cbind].
    unfold EmbedBuilder.setDescription, EmbedBuilder.within.
    apply Nat.leb_gt in Hlong. rewrite Hlong, Bool.andb_false_r. reflexivity.
Qed.

Lemma createVoteEmbed_validation_errors_witness :
  createVoteEmbed host_est 0 Case.vd_numbered Sample.td = Throw "ValidationError" /\
  createVoteEmbed host_est 0 (Sample.standings "Srv" Case.crowd) (Sample.events [])
  = Throw "ValidationError".
Proof.
  split.
  - apply (proj1 (createVoteEmbed_validation_errors host_est 0 Case.vd_numbered Sample.td
                    Sample.shaped eq_refl ltac:(vm_compute; reflexivity))).
    intros (s & E & _). discriminate E.
  - apply (proj2 (createVoteEmbed_validation_errors host_est 0
                    (Sample.standings "Srv" Case.crowd) (Sample.events [])
                    (repeat {| nickname := "A"; voteCount := "3";
                               lastActivityDisplay := "Unknown" |} 100)
                    eq_refl ltac:(vm_compute; reflexivity))).
    + exists "Srv". split; [reflexivity | cbn; lia].
    + vm_compute. lia.
Defined.

(** ** The order of the arrays received *)

Section Canonical.
Context {A : Type} (key : A -> Z).

Lemma NoDup_key_inj (l : list A) (x y : A) :
  NoDup (map key l) -> In x l -> In y l -> key x = key y -> x = y.
Proof.
  induction l as [| a l IH]; intros Hnd Hx Hy Hk; [now elim Hx |].
  cbn [map] in Hnd. inversion Hnd as [| ? ? Hnotin Hnd']; subst.
  destruct Hx as [-> | Hx]; destruct Hy as [-> | Hy].
  - reflexivity.
  - elim Hnotin. rewrite Hk. now apply in_map.
  - elim Hnotin. rewrite <- Hk. now apply in_map.
  - now apply IH.
Qed.

Lemma ge_key_trans : Relations_1.Transitive (ge_key key).
Proof. intros a b c. unfold ge_key. lia. Qed.

Lemma sorted_head_max (x : A) (l : list A) (y : A) :
  Sorted (ge_key key) (x :: l) -> In y (x :: l) -> key y <= key x.
Proof.
  intros Hs Hy. apply (Sorted_StronglySorted ge_key_trans) in Hs.
  apply StronglySorted_inv in Hs. destruct Hs as [_ Hall].
  destruct Hy as [<- | Hy]; [lia |].
  rewrite Forall_forall in Hall. now apply Hall.
Qed.

Lemma sorted_unique (a b : list A) :
  Sorted (ge_key key) a -> Sorted (ge_key key) b ->
  Permutation a b -> NoDup (map key a) -> a = b.
Proof.
  revert b. induction a as [| x a IH]; intros b Ha Hb Hperm Hnd.
  - apply Permutation_nil in Hperm. now subst.
  - destruct b as [| y b].
    { apply Permutation_sym, Permutation_nil in Hperm. discriminate. }
    assert (Hxy : x = y).
    { apply (NoDup_key_inj (x :: a)); [exact Hnd | now left | |].
      - eapply Permutation_in; [apply Permutation_sym, Hperm | now left].
      - assert (key x <= key y).
        { apply (sorted_head_max y b); [exact Hb |].
          eapply Permutation_in; [exact Hperm | now left]. }
        assert (key y <= key x).
        { apply (sorted_head_max x a); [exact Ha |].
          eapply Permutation_in; [apply Permutation_sym, Hperm | now left]. }
        lia. }
    subst y. f_equal.
    apply IH.
    + now inversion Ha.
    + now inversion Hb.
    + now apply Permutation_cons_inv in Hperm.
    + cbn [map] in Hnd. now inversion Hnd.
Qed.

Lemma sort_canonical (l l' : list A) :
  Permutation l l' -> NoDup (map key l) ->
  Sort.sort (desc key) l = Sort.sort (desc key) l'.
Proof.
  intros Hperm Hnd. apply sorted_unique.
  - apply sort_sorted.
  - apply sort_sorted.
  - eapply perm_trans; [apply Permutation_sym, sort_perm |].
    eapply perm_trans; [exact Hperm | apply sort_perm].
  - eapply Permutation_NoDup; [| exact Hnd].
    apply Permutation_map, sort_perm.
Qed.
End Canonical.

Lemma Permutation_filter_compat {A} (p : A -> bool) (l l' : list A) :
  Permutation l l' -> Permutation (filter p l) (filter p l').
Proof.
  induction 1 as [| x l l' _ IH | x y l | l l' l'' _ IH1 _ IH2]; cbn [filter].
  - constructor.
  - destruct (p x); [now constructor | exact IH].
  - destruct (p x), (p y); try apply Permutation_refl. apply perm_swap.
  - now apply perm_trans with (filter p l').
Qed.

Lemma getLatestTimestampForUser_formula (td : jsval) (events : list json) (nick : jsval) :
  Val.get_opt td "votes" = Some (JArr events) ->
  Forall wf_event events ->
  getLatestTimestampForUser td nick
  = Normal (hd_error (Sort.sort (desc timestamp_key) (matching events nick))).
Proof.
  intros Htd Hwf. unfold getLatestTimestampForUser.
  rewrite (get_opt_some _ _ _ Htd). cbn [cbind as_array].
  rewrite filterC_matching by assumption. cbn [cbind].
  destruct (matching events nick) as [| e r] eqn:Hm; [reflexivity |].
  rewrite (sortC_pure timestamp_key); [reflexivity |].
  intros a b Ha Hb. rewrite <- Hm in Ha, Hb.
  apply by_timestamp_desc; eapply matching_wf; eassumption.
Qed.

Lemma mapC_ext {A B} (f g : A -> Completion B) (l : list A) :
  (forall a, In a l -> f a = g a) -> mapC f l = mapC g l.
Proof.
  induction l as [| a l IH]; intros H; cbn [mapC]; [reflexivity |].
  rewrite (H a (or_introl eq_refl)), IH; [reflexivity |].
  intros b Hb. apply H. now right.
Qed.

(** X21: when the voters have pairwise different votes and the events of
    each nickname pairwise different timestamps, the records do not depend on
    the order in which the two arrays are received. *)
Theorem shape_order_independent (host : Host) (vd td vd' td' : jsval)
    (voters voters' events events' : list json) :
  Val.get_opt vd "voters" = Some (JArr voters) ->
  Val.get_opt vd' "voters" = Some (JArr voters') ->
  Val.get_opt td "votes" = Some (JArr events) ->
  Val.get_opt td' "votes" = Some (JArr events') ->
  Permutation voters voters' ->
  Permutation events events' ->
  Forall wf_voter voters ->
  Forall wf_event events ->
  NoDup (map votes_key voters) ->
  (forall nick, NoDup (map timestamp_key (matching events nick))) ->
  shape host vd td = shape host vd' td'.
Proof.
  intros Hvd Hvd' Htd Htd' Pv Pe Wv We Nv Ne.
  assert (Wv' : Forall wf_voter voters') by (eapply Permutation_Forall; eassumption).
  assert (We' : Forall wf_event events') by (eapply Permutation_Forall; eassumption).
  unfold shape, sortedVoters.
  rewrite (get_opt_some _ _ _ Hvd), (get_opt_some _ _ _ Hvd'). cbn [cbind as_array].
  rewrite (sortC_pure votes_key by_votes voters)
    by (intros a b Ha Hb; rewrite Forall_forall in Wv; apply by_votes_desc; now apply Wv).
  rewrite (sortC_pure votes_key by_votes voters')
    by (intros a b Ha Hb; rewrite Forall_forall in Wv'; apply by_votes_desc; now apply Wv').
  rewrite <- (sort_canonical votes_key voters voters' Pv Nv). cbn [cbind].
  apply mapC_ext. intros v _. unfold record_of.
  destruct (Val.get (Some v) "nickname") as [nick | e]; cbn [cbind]; [| reflexivity].
  rewrite (getLatestTimestampForUser_formula td events nick Htd We).
  rewrite (getLatestTimestampForUser_formula td' events' nick Htd' We').
  rewrite (sort_canonical timestamp_key (matching events nick) (matching events' nick)).
  - reflexivity.
  - now apply Permutation_filter_compat.
  - apply Ne.
Qed.

Lemma shape_order_independent_witness :
  shape host_est Sample.vd Sample.td = shape host_est Sample.vd_reordered Sample.td.
Proof.
  apply (shape_order_independent host_est Sample.vd Sample.td Sample.vd_reordered Sample.td
           [Sample.voter "A" "3"; Sample.voter "B" "5"]
           [Sample.voter "B" "5"; Sample.voter "A" "3"]
           [Sample.vote "A" Sample.july23 1753255620 "0"]
           [Sample.vote "A" Sample.july23 1753255620 "0"]).
  - reflexivity.
  - reflexivity.
  - reflexivity.
  - reflexivity.
  - apply perm_swap.
  - apply Permutation_refl.
  - repeat constructor; discriminate.
  - repeat constructor; discriminate.
  - repeat constructor; cbn; intuition discriminate.
  - intros nick. unfold matching. cbn [filter].
    destruct (Val.strict_eq _ nick); cbn [map]; repeat constructor.
    intros [].
Defined.
